(** * The sglang runtime-endpoint client and the bounded test runner

    A shallow embedding of
    - [python/sglang/lang/backend/runtime_endpoint.py]: the protocol client
      ([generate], [generate_stream], [select], [concatenate_and_append] and
      the proxy calls), and
    - [python/sglang/test/test_utils.py]: [run_with_timeout] and
      [run_unittest_files].

    Python values that travel on the wire are kept as Python has them: text
    is a [string] (one character per code point), an integer is a [Z], a
    float is a binary64 [spec_float], a request payload is a dictionary
    ([gmap string pyval]).  Exceptions are values of [exn]; code that talks
    to the server runs in a state-and-exception monad over the log of the
    requests issued and the replies the transport will deliver. *)

From Stdlib Require Import ZArith String Ascii List Lia Bool.
From Stdlib Require Import Floats.SpecFloat.
From stdpp Require Import gmap strings list fin_maps pretty.

Set Warnings "-register-all".
Open Scope string_scope.
Open Scope list_scope.
Open Scope Z_scope.

(** ** Python prelude *)

Module Py.

(** Values placed in request payloads. *)
Inductive pyval :=
| VNone
| VBool (b : bool)
| VInt (z : Z)
| VFloat (f : spec_float)
| VStr (s : string)
| VList (l : list pyval)
| VDict (d : gmap string pyval).

(** [a == b] on the values a runner returns: [bool] is a subclass of
    [int], so [False == 0] and [True == 1]. *)
Definition py_eq (a b : pyval) : bool :=
  match a, b with
  | VNone, VNone => true
  | VBool x, VBool y => Bool.eqb x y
  | VInt x, VInt y => Z.eqb x y
  | VBool x, VInt y | VInt y, VBool x => Z.eqb (Z.b2z x) y
  | VStr x, VStr y => String.eqb x y
  | _, _ => false
  end.

(** One [[logprob, token_id, token_text]] triple per token. *)
Definition token_logprobs : Type := list (spec_float * Z * option string).

(** The [meta_info] object of a generation response. *)
Record meta_info := {
  prompt_tokens : Z;
  completion_tokens : Z;
  normalized_prompt_logprob : spec_float;
  input_token_logprobs : token_logprobs;
  output_token_logprobs : token_logprobs
}.

(** Decoded response bodies, at the shapes the wire contract gives them.
    [DocOther] stands for every other document (an error detail, the
    server arguments); the client never subscripts into one
    successfully. *)
Inductive json_doc :=
| DocModelInfo (model_path : string)
| DocGeneration (text : string) (info : meta_info)
| DocBatch (items : list (string * meta_info))
| DocOther (raw : string).

Inductive runtime_arg :=
| ArgNone
| ArgMsg (msg : string)
| ArgDoc (d : json_doc).

Inductive exn :=
| AssertionError (msg : option string)
| RuntimeError (arg : runtime_arg)
| AttributeError (name : string)
| ConnectionError
| JSONDecodeError
| SubscriptError          (* KeyError or TypeError of a subscript *)
| IndexError
| ValueError
| TimeoutError.

Inductive result (A : Type) :=
| Ok (a : A)
| Raise (e : exn).
Arguments Ok {A} a.
Arguments Raise {A} e.

(** *** Strings *)

(** [s[n:]] for [n >= 0]. *)
Fixpoint str_drop (n : nat) (s : string) : string :=
  match n, s with
  | O, _ => s
  | S n', String _ r => str_drop n' r
  | S _, EmptyString => EmptyString
  end.

Fixpoint str_mem (c : ascii) (chars : string) : bool :=
  match chars with
  | EmptyString => false
  | String d r => if Ascii.eqb c d then true else str_mem c r
  end.

Fixpoint str_lstrip (chars s : string) : string :=
  match s with
  | EmptyString => EmptyString
  | String c r => if str_mem c chars then str_lstrip chars r else s
  end.

Fixpoint str_rstrip (chars s : string) : string :=
  match s with
  | EmptyString => EmptyString
  | String c r =>
      match str_rstrip chars r with
      | EmptyString => if str_mem c chars then EmptyString else String c EmptyString
      | r' => String c r'
      end
  end.

(** [s.strip(chars)] *)
Definition str_strip (chars s : string) : string :=
  str_rstrip chars (str_lstrip chars s).

(** [s.startswith(p)] *)
Definition startswith (s p : string) : bool := String.prefix p s.

(** Truth value of a string: non-empty. *)
Definition str_truthy (s : string) : bool :=
  match s with EmptyString => false | _ => true end.

Definition newline : string := String (ascii_of_nat 10) EmptyString.

(** *** Floats *)

Definition is_nan (f : spec_float) : bool :=
  match f with S754_nan => true | _ => false end.

(** The binary64 value of the literal [1e-5]:
    [0x1.4f8b588e368f1p-17]. *)
Definition float_1e_5 : spec_float :=
  S754_finite false 5902958103587057 (-69).

(** [numpy.argmax] over a float64 array: the index of the first
    occurrence of the maximum, a NaN counting as maximal.  The scan keeps
    the running maximum [mp] and its index, and replaces them when the
    next element is not [<= mp]. *)
Fixpoint argmax_scan (mp : spec_float) (max_ind i : nat)
         (ip : list spec_float) : nat :=
  match ip with
  | [] => max_ind
  | x :: rest =>
      if negb (SFleb x mp)
      then if is_nan x then i else argmax_scan x i (S i) rest
      else argmax_scan mp max_ind (S i) rest
  end.

Definition np_argmax (a : list spec_float) : result nat :=
  match a with
  | [] => Raise ValueError
  | x :: rest =>
      if is_nan x then Ok 0%nat else Ok (argmax_scan x 0%nat 1%nat rest)
  end.

(** [l[i]] for [i >= 0]. *)
Definition list_getitem {A} (l : list A) (i : nat) : result A :=
  match l !! i with
  | Some x => Ok x
  | None => Raise IndexError
  end.

End Py.
Export Py.

(** ** [runtime_endpoint.py] *)

Module runtime_endpoint.

(** *** The transport *)

Record HttpRequest := {
  req_url : string;
  req_json : option (gmap string pyval);
  req_stream : bool;
  req_api_key : option (option string);     (* keyword [api_key], when passed *)
  req_auth_token : option pyval;            (* keyword [auth_token], when passed *)
  req_verify : option string
}.

Record HttpResponse := {
  status_code : Z;
  body : option json_doc;     (* [None]: the body is not a JSON document *)
  lines : list string         (* the lines of a streamed body *)
}.

Inductive reply :=
| Unreachable
| Reply (res : HttpResponse).

(** The client's view of the network: the requests issued so far, oldest
    first, and the replies the transport delivers to the next ones. *)
Record world := {
  sent : list HttpRequest;
  inbox : list reply
}.

Definition exec (A : Type) : Type := world -> result A * world.

Definition ret {A} (a : A) : exec A := fun w => (Ok a, w).
Definition raise {A} (e : exn) : exec A := fun w => (Raise e, w).
Definition bind {A B} (m : exec A) (k : A -> exec B) : exec B :=
  fun w =>
    match m w with
    | (Ok a, w') => k a w'
    | (Raise e, w') => (Raise e, w')
    end.
Definition lift {A} (r : result A) : exec A := fun w => (r, w).

Declare Scope exec_scope.
Delimit Scope exec_scope with exec.
Notation "x <- m ;; k" := (bind m (fun x => k))
  (at level 100, m at next level, right associativity) : exec_scope.
Notation "m ;; k" := (bind m (fun _ => k))
  (at level 100, right associativity) : exec_scope.
Open Scope exec_scope.

(** [assert cond, msg] *)
Definition assert_ (cond : bool) (msg : option string) : exec unit :=
  if cond then ret tt else raise (AssertionError msg).

(** Modelled from the spec: [sglang.utils.http_request], the transport.
    It is synchronous, hands back the response whatever its status, and
    raises when the server cannot be reached.  The request is logged
    either way. *)
Definition http_request (rq : HttpRequest) : exec HttpResponse :=
  fun w =>
    let log := sent w ++ [rq] in
    match inbox w with
    | Reply res :: rest => (Ok res, {| sent := log; inbox := rest |})
    | Unreachable :: rest => (Raise ConnectionError, {| sent := log; inbox := rest |})
    | [] => (Raise ConnectionError, {| sent := log; inbox := [] |})
    end.

(** [res.json()] *)
Definition json (res : HttpResponse) : exec json_doc :=
  match body res with
  | Some d => ret d
  | None => raise JSONDecodeError
  end.

(** *** Subscripts into decoded documents *)

(** [d["model_path"]] *)
Definition doc_model_path (d : json_doc) : exec string :=
  match d with
  | DocModelInfo p => ret p
  | _ => raise SubscriptError
  end.

(** [d["text"]] *)
Definition doc_text (d : json_doc) : exec string :=
  match d with
  | DocGeneration t _ => ret t
  | _ => raise SubscriptError
  end.

(** [d["meta_info"]] *)
Definition doc_meta_info (d : json_doc) : exec meta_info :=
  match d with
  | DocGeneration _ m => ret m
  | _ => raise SubscriptError
  end.

(** [for r in d], each [r] then subscripted with ["meta_info"] *)
Definition doc_items (d : json_doc) : exec (list (string * meta_info)) :=
  match d with
  | DocBatch l => ret l
  | _ => raise SubscriptError
  end.

(** *** The caller's objects *)

(** [StreamExecutor]: the accumulated text and the attached images, each
    a pair of a path and its encoded data. *)
Record StreamExecutor := {
  text_ : string;
  images_ : list (string * string)
}.

Inductive dtype_sel :=
| DtypeNone                   (* [None] *)
| DtypeInt                    (* the type [int] *)
| DtypeStr (s : string)       (* a string, "int" or another *)
| DtypeOther (repr : string). (* any other object, with its [str()] *)

(** [SglSamplingParams], with the result of its [to_srt_kwargs()]. *)
Record SglSamplingParams := {
  dtype : dtype_sel;
  return_logprob : option bool;
  logprob_start_len : option Z;
  top_logprobs_num : option Z;
  return_text_in_logprobs : option bool;
  to_srt_kwargs : gmap string pyval
}.

Record GlobalConfig := {
  skip_special_tokens_in_output : bool;
  spaces_between_special_tokens_in_out : bool
}.

Record ChatTemplate := { template_name : string }.

(** An instance of [RuntimeEndpoint]: the attributes [__init__] assigns,
    and [base_attrs], the attributes the instance has from
    [BaseBackend.__init__] under other names. *)
Record RuntimeEndpoint := {
  support_concate_and_append : bool;
  base_url : string;
  api_key : option string;
  verify : option string;
  model_info : json_doc;
  chat_template : ChatTemplate;
  base_attrs : gmap string pyval
}.

(** [self.<name>] for a name [__init__] does not assign. *)
Definition getattr_base (self : RuntimeEndpoint) (name : string) : exec pyval :=
  match base_attrs self !! name with
  | Some v => ret v
  | None => raise (AttributeError name)
  end.

(** *** Methods *)

Definition _assert_success (res : HttpResponse) : exec unit :=
  if negb (status_code res =? 200)
  then (d <- json res ;; raise (RuntimeError (ArgDoc d)))
  else ret tt.

Definition _add_images (s : StreamExecutor) (data : gmap string pyval)
  : exec (gmap string pyval) :=
  match images_ s with
  | [] => ret data
  | img :: _ =>
      assert_ (Nat.eqb (length (images_ s)) 1) (Some "Only support one image.") ;;
      ret (<["image_data" := VStr (snd img)]> data)
  end.

(** [http_request(self.base_url + path, json=payload, stream=streaming,
    api_key=self.api_key, verify=self.verify)] *)
Definition self_request (self : RuntimeEndpoint) (path : string)
           (payload : option (gmap string pyval)) (streaming : bool) : exec HttpResponse :=
  http_request {| req_url := base_url self +:+ path;
                  req_json := payload;
                  req_stream := streaming;
                  req_api_key := Some (api_key self);
                  req_auth_token := None;
                  req_verify := verify self |}.

(** The attribute names [__init__] assigns. *)
Definition assigned_attrs : list string :=
  ["support_concate_and_append"; "base_url"; "api_key"; "verify";
   "model_info"; "chat_template"].

Section Init.
(** [sglang.lang.chat_template.get_chat_template_by_model_path] and the
    attributes left by [super().__init__()]. *)
Variable get_chat_template_by_model_path : string -> ChatTemplate.
Variable super_attrs : gmap string pyval.

Definition __init__ (base_url_ : string) (api_key_ verify_ : option string)
  : exec RuntimeEndpoint :=
  res <- http_request {| req_url := base_url_ +:+ "/get_model_info";
                         req_json := None;
                         req_stream := false;
                         req_api_key := Some api_key_;
                         req_auth_token := None;
                         req_verify := verify_ |} ;;
  _assert_success res ;;
  info <- json res ;;
  path <- doc_model_path info ;;
  ret {| support_concate_and_append := true;
         base_url := base_url_;
         api_key := api_key_;
         verify := verify_;
         model_info := info;
         chat_template := get_chat_template_by_model_path path;
         base_attrs := foldr delete super_attrs assigned_attrs |}.
End Init.

Definition get_model_name (self : RuntimeEndpoint) : exec string :=
  doc_model_path (model_info self).

Definition flush_cache (self : RuntimeEndpoint) : exec unit :=
  token <- getattr_base self "auth_token" ;;
  res <- http_request {| req_url := base_url self +:+ "/flush_cache";
                         req_json := None;
                         req_stream := false;
                         req_api_key := None;
                         req_auth_token := Some token;
                         req_verify := verify self |} ;;
  _assert_success res.

Definition get_server_args (self : RuntimeEndpoint) : exec json_doc :=
  token <- getattr_base self "auth_token" ;;
  res <- http_request {| req_url := base_url self +:+ "/get_server_args";
                         req_json := None;
                         req_stream := false;
                         req_api_key := None;
                         req_auth_token := Some token;
                         req_verify := verify self |} ;;
  _assert_success res ;;
  json res.

Definition get_chat_template (self : RuntimeEndpoint) : exec ChatTemplate :=
  ret (chat_template self).

(** [{"max_new_tokens": 0}] *)
Definition zero_new_tokens : pyval :=
  VDict {[ "max_new_tokens" := VInt 0 ]}.

Definition cache_prefix (self : RuntimeEndpoint) (prefix_str : string) : exec unit :=
  res <- self_request self "/generate"
           (Some (<["sampling_params" := zero_new_tokens]>
                    {[ "text" := VStr prefix_str ]})) false ;;
  _assert_success res.

Definition commit_lazy_operations (self : RuntimeEndpoint) (s : StreamExecutor)
  : exec unit :=
  data <- _add_images s (<["sampling_params" := zero_new_tokens]>
                           {[ "text" := VStr (text_ s) ]}) ;;
  res <- self_request self "/generate" (Some data) false ;;
  _assert_success res.

Definition fill_image (self : RuntimeEndpoint) (s : StreamExecutor) : exec unit :=
  data <- _add_images s (<["sampling_params" := zero_new_tokens]>
                           {[ "text" := VStr (text_ s) ]}) ;;
  res <- self_request self "/generate" (Some data) false ;;
  _assert_success res.

(** The ["sampling_params"] dictionary of [generate] and
    [generate_stream]: the output-formatting defaults, the datatype
    discriminator when asked for, and the keys of [to_srt_kwargs()], which
    come last in the literal and win. *)
Definition sampling_dict (cfg : GlobalConfig) (sp : SglSamplingParams)
           (with_dtype : bool) : gmap string pyval :=
  let defaults : gmap string pyval :=
    <["spaces_between_special_tokens" := VBool (spaces_between_special_tokens_in_out cfg)]>
      {[ "skip_special_tokens" := VBool (skip_special_tokens_in_output cfg) ]} in
  to_srt_kwargs sp ∪
    (if with_dtype then <["dtype" := VStr "int"]> defaults else defaults).

(** [getattr(sampling_params, item, None)] for the four logprob items. *)
Definition logprob_items (sp : SglSamplingParams) : list (string * option pyval) :=
  [("return_logprob", VBool <$> return_logprob sp);
   ("logprob_start_len", VInt <$> logprob_start_len sp);
   ("top_logprobs_num", VInt <$> top_logprobs_num sp);
   ("return_text_in_logprobs", VBool <$> return_text_in_logprobs sp)].

(** [data[item] = value] for every item whose value is not [None]. *)
Definition set_items (items : list (string * option pyval))
           (data : gmap string pyval) : gmap string pyval :=
  fold_left (fun d kv => match kv.2 with
                         | Some value => <[kv.1 := value]> d
                         | None => d
                         end) items data.

(** The statements [generate] and [generate_stream] share: the payload
    by datatype selector, then the logprob items. *)
Definition request_data (cfg : GlobalConfig) (s : StreamExecutor)
           (sp : SglSamplingParams) : exec (gmap string pyval) :=
  let build with_dtype : gmap string pyval :=
    <["sampling_params" := VDict (sampling_dict cfg sp with_dtype)]>
      {[ "text" := VStr (text_ s) ]} in
  data <- match dtype sp with
          | DtypeNone => ret (build false)
          | DtypeInt => ret (build true)
          | DtypeStr d =>
              if String.eqb d "int" then ret (build true)
              else raise (RuntimeError (ArgMsg ("Invalid dtype: " +:+ d)))
          | DtypeOther repr =>
              raise (RuntimeError (ArgMsg ("Invalid dtype: " +:+ repr)))
          end ;;
  ret (set_items (logprob_items sp) data).

Definition generate (cfg : GlobalConfig) (self : RuntimeEndpoint)
           (s : StreamExecutor) (sp : SglSamplingParams)
  : exec (string * meta_info) :=
  data <- request_data cfg s sp ;;
  data <- _add_images s data ;;
  res <- self_request self "/generate" (Some data) false ;;
  _assert_success res ;;
  obj <- json res ;;
  comp <- doc_text obj ;;
  info <- doc_meta_info obj ;;
  ret (comp, info).

(** How a stream stopped: the lines ran out, the terminal line came, or
    an exception left the generator. *)
Inductive stream_end :=
| Exhausted
| Done
| Aborted (e : exn).

(** A generator run to its end: what it yielded, the cursor [pos] it
    stopped with, and how it stopped. *)
Record stream_run := {
  yields : list (string * meta_info);
  cursor : nat;
  ending : stream_end
}.

Section Stream.
(** [json.loads] *)
Variable json_loads : string -> option json_doc.

(** The loop over [res.iter_lines()], started with cursor [pos]; the
    lines are taken as decoded. *)
Fixpoint stream_loop (pos : nat) (chunks : list string) : stream_run :=
  match chunks with
  | [] => {| yields := []; cursor := pos; ending := Exhausted |}
  | chunk :: rest =>
      if str_truthy chunk && startswith chunk "data:" then
        if String.eqb chunk "data: [DONE]"
        then {| yields := []; cursor := pos; ending := Done |}
        else
          match json_loads (str_strip newline (str_drop 5 chunk)) with
          | None => {| yields := []; cursor := pos; ending := Aborted JSONDecodeError |}
          | Some (DocGeneration text meta) =>
              let chunk_text := str_drop pos text in
              let pos' := (pos + String.length chunk_text)%nat in
              let r := stream_loop pos' rest in
              {| yields := (chunk_text, meta) :: yields r;
                 cursor := cursor r;
                 ending := ending r |}
          | Some _ => {| yields := []; cursor := pos; ending := Aborted SubscriptError |}
          end
      else stream_loop pos rest
  end.

Definition generate_stream (cfg : GlobalConfig) (self : RuntimeEndpoint)
           (s : StreamExecutor) (sp : SglSamplingParams) : exec stream_run :=
  data <- request_data cfg s sp ;;
  data <- _add_images s (<["stream" := VBool true]> data) ;;
  res <- self_request self "/generate" (Some data) true ;;
  _assert_success res ;;
  ret (stream_loop 0 (lines res)).
End Stream.

(** [res.json()["meta_info"]["prompt_tokens"]] *)
Definition doc_prompt_tokens (d : json_doc) : exec Z :=
  info <- doc_meta_info d ;;
  ret (prompt_tokens info).

(** The payload of the priming call of [select]. *)
Definition priming_data (s : StreamExecutor) : gmap string pyval :=
  <["sampling_params" := zero_new_tokens]> {[ "text" := VStr (text_ s) ]}.

(** The payload of the scoring call of [select], before the image. *)
Definition scoring_data (s : StreamExecutor) (choices : list string)
           (prompt_len : Z) : gmap string pyval :=
  <["logprob_start_len" := VInt (Z.max (prompt_len - 2) 0)]>
    (<["return_logprob" := VBool true]>
       (<["sampling_params" := zero_new_tokens]>
          {[ "text" := VList ((fun c => VStr (text_ s +:+ c)) <$> choices) ]})).

Definition select (self : RuntimeEndpoint) (s : StreamExecutor)
           (choices : list string) (temperature : spec_float)
  : exec (string * list spec_float * list token_logprobs * list token_logprobs) :=
  assert_ (SFleb temperature float_1e_5) None ;;
  (* Cache common prefix *)
  data <- _add_images s (priming_data s) ;;
  res <- self_request self "/generate" (Some data) false ;;
  _assert_success res ;;
  d <- json res ;;
  prompt_len <- doc_prompt_tokens d ;;
  (* Compute logprob *)
  data <- _add_images s (scoring_data s choices prompt_len) ;;
  res <- self_request self "/generate" (Some data) false ;;
  _assert_success res ;;
  obj <- json res ;;
  rs <- doc_items obj ;;
  let normalized_prompt_logprobs := (fun r => normalized_prompt_logprob r.2) <$> rs in
  idx <- lift (np_argmax normalized_prompt_logprobs) ;;
  decision <- lift (list_getitem choices idx) ;;
  ret (decision,
       normalized_prompt_logprobs,
       (fun r => input_token_logprobs r.2) <$> rs,
       (fun r => output_token_logprobs r.2) <$> rs).

Definition concatenate_and_append (self : RuntimeEndpoint)
           (src_rids : list string) (dst_rid : string) : exec unit :=
  res <- self_request self "/concate_and_append_request"
           (Some (<["dst_rid" := VStr dst_rid]>
                    {[ "src_rids" := VList (VStr <$> src_rids) ]})) false ;;
  _assert_success res.

End runtime_endpoint.

(** ** [test_utils.py]: the bounded test runner *)

Module test_utils.

(** What a thread does within the time [join(timeout)] waits for it:
    it returns a value, it is still running, or it ended by an exception
    without a value. *)
Inductive thread_outcome (A : Type) :=
| Returned (a : A)
| StillRunning
| Died.
Arguments Returned {A} a.
Arguments StillRunning {A}.
Arguments Died {A}.

(** [run_with_timeout(func, timeout=...)], given what the thread of [func]
    does within the timeout. *)
Definition run_with_timeout {A} (t : thread_outcome A) : result A :=
  match t with
  | StillRunning => Raise TimeoutError       (* [t.is_alive()] *)
  | Died => Raise (RuntimeError ArgNone)     (* [not ret_value] *)
  | Returned a => Ok a                       (* [ret_value[0]] *)
  end.

(** What the worker process of a test file does within the timeout. *)
Inductive behaviour :=
| Exits (exitcode : Z)     (* started, joined, [p.exitcode] *)
| Hangs                    (* still running when the timeout elapses *)
| StartFails.              (* [p.start()] raises in the thread *)

Inductive message :=
| MsgTimeout (filename : string)
| MsgSuccess
| MsgFail.

(** What the parent process does, in order. *)
Inductive event :=
| EvStart (filename : string)         (* [p.start()] *)
| EvTerminate (filename : string)     (* [p.terminate()] *)
| EvSleep (seconds : Z)               (* [time.sleep] *)
| EvPrint (m : message).

(** How the [for] loop is left. *)
Inductive flow :=
| LoopEnd                  (* every file done, [success] still [True] *)
| Break                    (* [success = False; break] *)
| Return (v : pyval)
| Raised (e : exn).

Section Runner.
(** The behaviour of the worker of each file under the timeout
    [timeout_per_file]. *)
Variable worker : string -> behaviour.

(** [run_one_file], seen from the thread that runs it: [p.start()] then
    [p.join()], with no value returned. *)
Definition run_one_file (filename : string) : thread_outcome unit :=
  match worker filename with
  | Exits _ => Returned tt
  | Hangs => StillRunning
  | StartFails => Died
  end.

(** [p.exitcode]: the exit status once the process was joined, [None]
    before. *)
Definition exitcode (filename : string) : option Z :=
  match worker filename with
  | Exits c => Some c
  | _ => None
  end.

(** The loop [for filename in files], with the events of the parent
    process and the way the loop is left. *)
Fixpoint for_files (files : list string) : list event * flow :=
  match files with
  | [] => ([], LoopEnd)
  | filename :: rest =>
      match run_with_timeout (run_one_file filename) with
      | Ok _ =>
          if negb (bool_decide (exitcode filename = Some 0))
          then ([EvStart filename], Break)
          else let (evs, fl) := for_files rest in
               (EvStart filename :: evs, fl)
      | Raise TimeoutError =>
          ([EvStart filename; EvTerminate filename; EvSleep 5;
            EvPrint (MsgTimeout filename)],
           Return (VBool false))
      | Raise e => ([EvStart filename], Raised e)
      end
  end.

(** [run_unittest_files(files, timeout_per_file)]: the events and the
    value returned, or the exception raised. *)
Definition run_unittest_files (files : list string) : list event * result pyval :=
  let (evs, fl) := for_files files in
  match fl with
  | LoopEnd => (evs ++ [EvPrint MsgSuccess], Ok (VInt 0))
  | Break => (evs ++ [EvPrint MsgFail], Ok (VInt (-1)))
  | Return v => (evs, Ok v)
  | Raised e => (evs, Raise e)
  end.
End Runner.

(** The files whose worker was started, in order. *)
Definition started (evs : list event) : list string :=
  omap (fun e => match e with EvStart f => Some f | _ => None end) evs.


(** *** The baseline servers *)

(** A call [requests.post(url, json=data)]. *)
Record PostRequest := {
  post_url : string;
  post_json : gmap string pyval
}.

(** Decoded bodies of the baseline servers, at the shapes the callers
    read: an object whose ["text"] is a list of strings, with or without a
    ["prompt_score"]; an object whose ["text"] is one string; an object with
    a list under ["generated_text"]; any other JSON object. *)
Inductive baseline_doc :=
| ReplyTexts (texts : list string) (prompt_score : option spec_float)
| ReplyText (text : string)
| ReplyGenerated (generated_text : list string)
| ReplyObject.

Record PostResponse := {
  post_status : Z;
  post_body : option baseline_doc     (* [None]: the body is not JSON *)
}.

(** The requests posted so far, oldest first, and what the next ones are
    answered with, [None] standing for a server that cannot be reached. *)
Record net := {
  posted : list PostRequest;
  answers : list (option PostResponse)
}.

Definition io (A : Type) : Type := net -> result A * net.

Definition io_ret {A} (a : A) : io A := fun n => (Ok a, n).
Definition io_raise {A} (e : exn) : io A := fun n => (Raise e, n).
Definition io_bind {A B} (m : io A) (k : A -> io B) : io B :=
  fun n =>
    match m n with
    | (Ok a, n') => k a n'
    | (Raise e, n') => (Raise e, n')
    end.

Declare Scope io_scope.
Delimit Scope io_scope with io.
Notation "x <- m ;; k" := (io_bind m (fun x => k))
  (at level 100, m at next level, right associativity) : io_scope.
Notation "m ;; k" := (io_bind m (fun _ => k))
  (at level 100, right associativity) : io_scope.
Open Scope io_scope.

(** [assert cond] *)
Definition io_assert (cond : bool) : io unit :=
  if cond then io_ret tt else io_raise (AssertionError None).

(** [assert url is not None], giving the address. *)
Definition assert_url (url : option string) : io string :=
  match url with
  | Some u => io_ret u
  | None => io_raise (AssertionError None)
  end.

(** [requests.post(url, json=data)] *)
Definition requests_post (url : string) (data : gmap string pyval) : io PostResponse :=
  fun n =>
    let log := posted n ++ [{| post_url := url; post_json := data |}] in
    match answers n with
    | Some res :: rest => (Ok res, {| posted := log; answers := rest |})
    | None :: rest => (Raise ConnectionError, {| posted := log; answers := rest |})
    | [] => (Raise ConnectionError, {| posted := log; answers := [] |})
    end.

(** [res.json()] *)
Definition post_json_body (res : PostResponse) : io baseline_doc :=
  match post_body res with
  | Some d => io_ret d
  | None => io_raise JSONDecodeError
  end.

(** A prediction: one string, or a list of strings. *)
Inductive pred :=
| PredStr (text : string)
| PredList (texts : list string).

(** [d["text"]] *)
Definition doc_text_field (d : baseline_doc) : io pred :=
  match d with
  | ReplyTexts ts _ => io_ret (PredList ts)
  | ReplyText t => io_ret (PredStr t)
  | _ => io_raise SubscriptError
  end.

(** The characters of a string, each as a string. *)
Fixpoint str_chars (s : string) : list string :=
  match s with
  | EmptyString => []
  | String c r => String c EmptyString :: str_chars r
  end.

(** [x[0]] on a list of strings or on a string. *)
Definition pred_first (x : pred) : io string :=
  match x with
  | PredList (t :: _) => io_ret t
  | PredStr (String c _) => io_ret (String c EmptyString)
  | _ => io_raise IndexError
  end.

(** [for x in ...] over a list of strings or the characters of a string. *)
Definition pred_items (x : pred) : list string :=
  match x with
  | PredList ts => ts
  | PredStr t => str_chars t
  end.

(** The part of [call_generate_vllm] and [call_generate_outlines] after
    the request: the status check and the prediction with the first
    [len(prompt)] characters of each text cut off. *)
Definition strip_prompt (prompt : string) (n : Z) (res : PostResponse) : io pred :=
  io_assert (post_status res =? 200) ;;
  if n =? 1 then
    d <- post_json_body res ;;
    texts <- doc_text_field d ;;
    first <- pred_first texts ;;
    io_ret (PredStr (str_drop (String.length prompt) first))
  else
    d <- post_json_body res ;;
    texts <- doc_text_field d ;;
    io_ret (PredList ((fun x => str_drop (String.length prompt) x) <$> pred_items texts)).

Definition call_generate_lightllm (prompt : string) (temperature : spec_float)
           (max_tokens : Z) (stop : pyval) (url : option string) : io string :=
  url <- assert_url url ;;
  res <- requests_post url
           (<["parameters" :=
                VDict (<["stop_sequences" := stop]>
                         (<["max_new_tokens" := VInt max_tokens]>
                            {[ "temperature" := VFloat temperature ]}))]>
              {[ "inputs" := VStr prompt ]}) ;;
  io_assert (post_status res =? 200) ;;
  d <- post_json_body res ;;
  match d with
  | ReplyGenerated (t :: _) => io_ret t
  | ReplyGenerated [] => io_raise IndexError
  | _ => io_raise SubscriptError
  end.

Definition call_generate_vllm (prompt : string) (temperature : spec_float)
           (max_tokens : Z) (stop : pyval) (n : Z) (url : option string) : io pred :=
  url <- assert_url url ;;
  res <- requests_post url
           (<["n" := VInt n]>
              (<["stop" := stop]>
                 (<["max_tokens" := VInt max_tokens]>
                    (<["temperature" := VFloat temperature]>
                       {[ "prompt" := VStr prompt ]})))) ;;
  strip_prompt prompt n res.

Definition call_generate_outlines (prompt : string) (temperature : spec_float)
           (max_tokens : Z) (stop regex : pyval) (n : Z) (url : option string) : io pred :=
  url <- assert_url url ;;
  res <- requests_post url
           (<["n" := VInt n]>
              (<["regex" := regex]>
                 (<["stop" := stop]>
                    (<["max_tokens" := VInt max_tokens]>
                       (<["temperature" := VFloat temperature]>
                          {[ "prompt" := VStr prompt ]}))))) ;;
  strip_prompt prompt n res.

Definition call_generate_srt_raw (prompt : string) (temperature : spec_float)
           (max_tokens : Z) (stop : pyval) (url : option string) : io pred :=
  url <- assert_url url ;;
  res <- requests_post url
           (<["sampling_params" :=
                VDict (<["stop" := stop]>
                         (<["max_new_tokens" := VInt max_tokens]>
                            {[ "temperature" := VFloat temperature ]}))]>
              {[ "text" := VStr prompt ]}) ;;
  io_assert (post_status res =? 200) ;;
  obj <- post_json_body res ;;
  doc_text_field obj.

(** [numpy.argmax] over an array of integers: the index of the first
    occurrence of the maximum. *)
Fixpoint argmax_scan_int (mp : Z) (max_ind i : nat) (ip : list Z) : nat :=
  match ip with
  | [] => max_ind
  | x :: rest =>
      if mp <? x then argmax_scan_int x i (S i) rest
      else argmax_scan_int mp max_ind (S i) rest
  end.

Definition np_argmax_int (a : list Z) : result nat :=
  match a with
  | [] => Raise ValueError
  | x :: rest => Ok (argmax_scan_int x 0%nat 1%nat rest)
  end.

(** The loop of [call_select_lightllm]: one request per choice, each
    checked for status 200, each scored 0. *)
Fixpoint select_lightllm_scores (context : string) (choices : list string)
         (url : string) : io (list Z) :=
  match choices with
  | [] => io_ret []
  | choice :: rest =>
      res <- requests_post url
               (<["parameters" := VDict {[ "max_new_tokens" := VInt 1 ]}]>
                  {[ "inputs" := VStr (context +:+ choice) ]}) ;;
      io_assert (post_status res =? 200) ;;
      scores <- select_lightllm_scores context rest url ;;
      io_ret (0 :: scores)
  end.

Definition call_select_lightllm (context : string) (choices : list string)
           (url : option string) : io nat :=
  url <- assert_url url ;;
  scores <- select_lightllm_scores context choices url ;;
  fun n => (np_argmax_int scores, n).

(** [res.json().get("prompt_score", 0)], the default 0 as the float the
    array of scores holds it as. *)
Definition doc_prompt_score (d : baseline_doc) : spec_float :=
  match d with
  | ReplyTexts _ (Some score) => score
  | _ => S754_zero false
  end.

(** The loop of [call_select_vllm]. *)
Fixpoint select_vllm_scores (context : string) (choices : list string)
         (url : string) : io (list spec_float) :=
  match choices with
  | [] => io_ret []
  | choice :: rest =>
      res <- requests_post url
               (<["prompt_logprobs" := VInt 1]>
                  (<["max_tokens" := VInt 1]>
                     {[ "prompt" := VStr (context +:+ choice) ]})) ;;
      io_assert (post_status res =? 200) ;;
      d <- post_json_body res ;;
      scores <- select_vllm_scores context rest url ;;
      io_ret (doc_prompt_score d :: scores)
  end.

Definition call_select_vllm (context : string) (choices : list string)
           (url : option string) : io nat :=
  url <- assert_url url ;;
  scores <- select_vllm_scores context choices url ;;
  fun n => (np_argmax scores, n).


(** *** Command-line arguments and the choice of a backend *)

(** The fields of the parsed arguments the functions below read. *)
Record Namespace := {
  ns_backend : string;
  ns_host : string;
  ns_port : option Z;
  ns_model_path : string;
  ns_n_ctx : Z
}.

(** The backends the parser of [add_common_other_args_and_parse]
    accepts. *)
Definition backend_choices : list string :=
  ["vllm"; "outlines"; "lightllm"; "ginfer"; "guidance"; "lmql"; "srt-raw"; "llama.cpp"].

Definition default_port : gmap string Z :=
  <["ginfer" := 9988]>
    (<["srt-raw" := 30000]>
       (<["lmql" := 23000]>
          (<["lightllm" := 22000]>
             (<["outlines" := 21000]> {[ "vllm" := 21000 ]})))).

(** [add_common_other_args_and_parse], from the arguments as
    [parser.parse_args()] returned them. *)
Definition add_common_other_args_and_parse (args : Namespace) : Namespace :=
  match ns_port args with
  | None =>
      {| ns_backend := ns_backend args;
         ns_host := ns_host args;
         ns_port := default_port !! ns_backend args;
         ns_model_path := ns_model_path args;
         ns_n_ctx := ns_n_ctx args |}
  | Some _ => args
  end.

(** [f"{args.host}:{args.port}"] *)
Definition host_port (args : Namespace) : string :=
  ns_host args +:+ ":" +:+
    match ns_port args with
    | Some port => pretty port
    | None => "None"
    end.

(** The two flags of the global configuration [select_sglang_backend]
    writes. *)
Record ParallelFlags := {
  enable_parallel_decoding : bool;
  enable_parallel_encoding : bool
}.

Section Backends.
(** What [RuntimeEndpoint.__init__] takes from its environment, and the
    constructor of the [OpenAI] backend. *)
Variable get_chat_template_by_model_path : string -> runtime_endpoint.ChatTemplate.
Variable super_attrs : gmap string pyval.
Variable OpenAIBackend : Type.
Variable OpenAI : string -> runtime_endpoint.exec OpenAIBackend.

Inductive backend :=
| BackendRuntime (b : runtime_endpoint.RuntimeEndpoint)
| BackendOpenAI (b : OpenAIBackend).

(** [select_sglang_backend(args)]: the outcome and the world of the
    constructor called, and the flags as the call leaves them. *)
Definition select_sglang_backend (args : Namespace) (flags : ParallelFlags)
           (w : runtime_endpoint.world)
  : result backend * runtime_endpoint.world * ParallelFlags :=
  if startswith (ns_backend args) "srt" then
    let flags' :=
      if String.eqb (ns_backend args) "srt-no-parallel"
      then {| enable_parallel_decoding := false; enable_parallel_encoding := false |}
      else flags in
    (runtime_endpoint.bind
       (runtime_endpoint.__init__ get_chat_template_by_model_path super_attrs
          (host_port args) None None)
       (fun b => runtime_endpoint.ret (BackendRuntime b)) w,
     flags')
  else if startswith (ns_backend args) "gpt-" then
    (runtime_endpoint.bind (OpenAI (ns_backend args))
       (fun b => runtime_endpoint.ret (BackendOpenAI b)) w,
     flags)
  else
    (Raise ValueError, w, flags).
End Backends.

Section Getters.
(** The libraries the getters import for the backends that are not served
    over HTTP: the model constructors of [guidance] and [lmql], and the
    warm-up calls on a [guidance] model. *)
Variable Model : Type.
Variable guidance_LlamaCpp : string -> Z -> result Model.
Variable lmql_model : string -> string -> result Model.
Variable warm_up_generate : Model -> result unit.
Variable warm_up_select : Model -> result unit.

(** The function a getter hands back, with the keyword it is partially
    applied to: an address or a model. *)
Inductive callee :=
| CallLightllm (url : string)
| CallVllm (url : string)
| CallSrtRaw (url : string)
| CallGinfer (url : string)
| CallOutlines (url : string)
| CallGuidance (model : Model)
| CallLmql (model : Model).

Definition _get_call_generate (args : Namespace) : result callee :=
  if String.eqb (ns_backend args) "lightllm" then
    Ok (CallLightllm (host_port args +:+ "/generate"))
  else if String.eqb (ns_backend args) "vllm" then
    Ok (CallVllm (host_port args +:+ "/generate"))
  else if String.eqb (ns_backend args) "srt-raw" then
    Ok (CallSrtRaw (host_port args +:+ "/generate"))
  else if String.eqb (ns_backend args) "ginfer" then
    Ok (CallGinfer (host_port args))
  else if String.eqb (ns_backend args) "outlines" then
    Ok (CallOutlines (host_port args +:+ "/generate"))
  else if String.eqb (ns_backend args) "guidance" then
    match guidance_LlamaCpp (ns_model_path args) (ns_n_ctx args) with
    | Ok model =>
        match warm_up_generate model with
        | Ok _ => Ok (CallGuidance model)
        | Raise e => Raise e
        end
    | Raise e => Raise e
    end
  else if String.eqb (ns_backend args) "lmql" then
    match lmql_model (ns_model_path args) (host_port args) with
    | Ok model => Ok (CallLmql model)
    | Raise e => Raise e
    end
  else Raise ValueError.

Definition _get_call_select (args : Namespace) : result callee :=
  if String.eqb (ns_backend args) "lightllm" then
    Ok (CallLightllm (host_port args +:+ "/generate"))
  else if String.eqb (ns_backend args) "vllm" then
    Ok (CallVllm (host_port args +:+ "/generate"))
  else if String.eqb (ns_backend args) "guidance" then
    match guidance_LlamaCpp (ns_model_path args) (ns_n_ctx args) with
    | Ok model =>
        match warm_up_select model with
        | Ok _ => Ok (CallGuidance model)
        | Raise e => Raise e
        end
    | Raise e => Raise e
    end
  else if String.eqb (ns_backend args) "lmql" then
    match lmql_model (ns_model_path args) (host_port args) with
    | Ok model => Ok (CallLmql model)
    | Raise e => Raise e
    end
  else Raise ValueError.
End Getters.

(** *** Launching a server *)

(** [s.split(sep)] for a separator of one character. *)
Fixpoint str_split (sep : ascii) (s : string) : list string :=
  match s with
  | EmptyString => [EmptyString]
  | String c r =>
      if Ascii.eqb c sep then EmptyString :: str_split sep r
      else match str_split sep r with
           | p :: ps => String c p :: ps
           | [] => [String c EmptyString]
           end
  end.

(** The command [popen_launch_server] builds: [base_url] is split at its
    colons into exactly three parts, the second without its first two
    characters is the host and the third the port. *)
Definition launch_command (model base_url : string) (api_key : option string)
           (other_args : list string) : result (list string) :=
  match str_split ":" base_url with
  | [_; host; port] =>
      Ok (["python3"; "-m"; "sglang.launch_server"; "--model-path"; model;
           "--host"; str_drop 2 host; "--port"; port]
            ++ other_args
            ++ match api_key with
               | Some key => if str_truthy key then ["--api-key"; key] else []
               | None => []
               end)
  | _ => Raise ValueError
  end.

(** What the launcher sees of its environment: the successive values of
    [time.time()], the first one being [start_time], and the outcome of the
    successive polls, a status or [None] for a [RequestException]. *)
Record launch_env := {
  now : nat -> spec_float;
  answer : nat -> option Z
}.

(** What the launcher did: the commands spawned, the polls as pairs of an
    address and an [Authorization] header, and the sleeps. *)
Record launch_trace := {
  spawned : list (list string);
  polled : list (string * string);
  slept : list Z
}.

(** [f"Bearer {api_key}"] *)
Definition bearer (api_key : option string) : string :=
  "Bearer " +:+ match api_key with Some key => key | None => "None" end.

Section Launch.
Variable env : launch_env.
Variable base_url : string.
Variable timeout : spec_float.
Variable api_key : option string.

(** The polling loop, about to read the clock for the [i]-th time after
    [start_time]; [None] when [fuel] iterations were not enough to leave
    it. *)
Fixpoint poll_loop (fuel i : nat) (tr : launch_trace)
  : option (result unit * launch_trace) :=
  match fuel with
  | O => None
  | S fuel' =>
      if SFltb (SFsub 53 1024 (now env i) (now env 0)) timeout then
        let tr1 := {| spawned := spawned tr;
                      polled := polled tr ++ [(base_url +:+ "/v1/models", bearer api_key)];
                      slept := slept tr |} in
        let again :=
          poll_loop fuel' (S i)
            {| spawned := spawned tr1; polled := polled tr1;
               slept := slept tr1 ++ [10] |} in
        match answer env (i - 1) with
        | Some status_code => if status_code =? 200 then Some (Ok tt, tr1) else again
        | None => again
        end
      else Some (Raise TimeoutError, tr)
  end.

(** [popen_launch_server]: the process of the command spawned when a poll
    answered 200, the exception otherwise. *)
Definition popen_launch_server (fuel : nat) (model : string) (other_args : list string)
  : option (result (list string) * launch_trace) :=
  match launch_command model base_url api_key other_args with
  | Raise e => Some (Raise e, {| spawned := []; polled := []; slept := [] |})
  | Ok command =>
      match poll_loop fuel 1 {| spawned := [command]; polled := []; slept := [] |} with
      | Some (Ok _, tr) => Some (Ok command, tr)
      | Some (Raise e, tr) => Some (Raise e, tr)
      | None => None
      end
  end.
End Launch.

End test_utils.

(** * Vocabulary of the statements *)

Import runtime_endpoint test_utils.

(** ** The order of binary64 values

    [SFcompare] orders the values that are not NaN as their keys are ordered
    lexicographically: the sign class, the exponent, the mantissa. *)

(** The key of a value: none for a NaN. *)
Definition float_key (f : spec_float) : option (Z * Z * Z) :=
  match f with
  | S754_nan => None
  | S754_infinity true => Some (-2, 0, 0)
  | S754_infinity false => Some (2, 0, 0)
  | S754_zero _ => Some (0, 0, 0)
  | S754_finite false m e => Some (1, e, Zpos m)
  | S754_finite true m e => Some (-1, - e, Zneg m)
  end.

(** The strict lexicographic order of keys. *)
Definition key_lt (a b : Z * Z * Z) : Prop :=
  a.1.1 < b.1.1 \/ (a.1.1 = b.1.1 /\ (a.1.2 < b.1.2 \/ (a.1.2 = b.1.2 /\ a.2 < b.2))).

Definition key_le (a b : Z * Z * Z) : Prop := key_lt a b \/ a = b.

(** [l[i]] is a maximum of [l], and every element before it is strictly
    smaller: [i] is the first occurrence of the maximum. *)
Definition is_first_max (l : list spec_float) (i : nat) : Prop :=
  exists best, l !! i = Some best
    /\ (forall j x, l !! j = Some x -> SFleb x best = true)
    /\ (forall j x, (j < i)%nat -> l !! j = Some x -> SFltb x best = true).

(** No score is a NaN. *)
Definition no_nan (l : list spec_float) : Prop :=
  Forall (fun x => x <> S754_nan) l.

(** [l[i]] is a NaN and no element before it is one: [i] is the first
    occurrence of a NaN. *)
Definition is_first_nan (l : list spec_float) (i : nat) : Prop :=
  l !! i = Some S754_nan
  /\ (forall j x, (j < i)%nat -> l !! j = Some x -> x <> S754_nan).

(** ** The runner *)

(** The worker of every file of [pre] ends within the timeout with exit
    status 0. *)
Definition all_succeed (worker : string -> behaviour) (pre : list string) : Prop :=
  Forall (fun g => worker g = Exits 0) pre.

(** [test_b.py] fails, every other file succeeds. *)
Definition abc_worker (f : string) : behaviour :=
  if String.eqb f "test_b.py" then Exits 1 else Exits 0.

(** [test_hang.py] never ends, every other file succeeds. *)
Definition hang_worker (f : string) : behaviour :=
  if String.eqb f "test_hang.py" then Hangs else Exits 0.

(** ** The endpoint *)

(** The datatype selector is one [request_data] accepts. *)
Definition dtype_ok (sp : SglSamplingParams) : bool :=
  match dtype sp with
  | DtypeNone | DtypeInt => true
  | DtypeStr d => String.eqb d "int"
  | DtypeOther _ => false
  end.

(** The request [http_request(self.base_url + path, json=data,
    stream=streaming, api_key=self.api_key, verify=self.verify)]. *)
Definition request_of (self : RuntimeEndpoint) (path : string)
           (data : gmap string pyval) (streaming : bool) : HttpRequest :=
  {| req_url := base_url self +:+ path;
     req_json := Some data;
     req_stream := streaming;
     req_api_key := Some (api_key self);
     req_auth_token := None;
     req_verify := verify self |}.

(** The payload [data] with the image of [s], when it has one. *)
Definition with_image (s : StreamExecutor) (data : gmap string pyval)
  : gmap string pyval :=
  match images_ s with
  | [] => data
  | img :: _ => <["image_data" := VStr img.2]> data
  end.

(** The payload [request_data] builds for an accepted datatype selector. *)
Definition base_payload (cfg : GlobalConfig) (s : StreamExecutor)
           (sp : SglSamplingParams) : gmap string pyval :=
  set_items (logprob_items sp)
    (<["sampling_params" :=
         VDict (sampling_dict cfg sp
                  match dtype sp with DtypeNone => false | _ => true end)]>
       {[ "text" := VStr (text_ s) ]}).

(** ** The stream *)

(** [chunk] is a data line, not the terminal one, whose payload decodes to
    the snapshot with text [text] and metadata [meta]. *)
Definition is_data_frame (json_loads : string -> option json_doc)
           (chunk text : string) (meta : meta_info) : Prop :=
  str_truthy chunk = true
  /\ startswith chunk "data:" = true
  /\ String.eqb chunk "data: [DONE]" = false
  /\ json_loads (str_strip newline (str_drop 5 chunk)) = Some (DocGeneration text meta).

(** The snapshots a stream of lines carries: lines that are not data lines
    are skipped, each data frame contributes its snapshot, and nothing is
    read after the terminal line. *)
Inductive frames_of (json_loads : string -> option json_doc)
  : list string -> list (string * meta_info) -> Prop :=
| frames_end : frames_of json_loads [] []
| frames_skip chunk rest snaps :
    str_truthy chunk && startswith chunk "data:" = false ->
    frames_of json_loads rest snaps ->
    frames_of json_loads (chunk :: rest) snaps
| frames_data chunk rest text meta snaps :
    is_data_frame json_loads chunk text meta ->
    frames_of json_loads rest snaps ->
    frames_of json_loads (chunk :: rest) ((text, meta) :: snaps)
| frames_done rest :
    frames_of json_loads ("data: [DONE]" :: rest) [].

(** Each text extends the one before it, the first one extending [prev]. *)
Fixpoint cumulative (prev : string) (texts : list string) : Prop :=
  match texts with
  | [] => True
  | t :: rest => (exists delta, t = prev +:+ delta) /\ cumulative t rest
  end.

(** The last of the texts, [prev] when there is none. *)
Fixpoint last_snapshot (prev : string) (texts : list string) : string :=
  match texts with
  | [] => prev
  | t :: rest => last_snapshot t rest
  end.

(** The concatenation of the deltas yielded. *)
Definition emitted (ys : list (string * meta_info)) : string :=
  foldr (fun y acc => y.1 +:+ acc) "" ys.

(** ** Sample inputs *)

Definition float_one : spec_float := S754_finite false 4503599627370496 (-52).
Definition float_zero : spec_float := S754_zero false.
Definition float_minus_quarter : spec_float := S754_finite true 4503599627370496 (-54).
Definition float_minus_1_5 : spec_float := S754_finite true 6755399441055744 (-52).

Definition sample_self : RuntimeEndpoint :=
  {| support_concate_and_append := true;
     base_url := "http://localhost:30000";
     api_key := None;
     verify := None;
     model_info := DocModelInfo "meta-llama/Meta-Llama-3.1-8B-Instruct";
     chat_template := {| template_name := "llama-3-instruct" |};
     base_attrs := ∅ |}.

Definition sample_state : StreamExecutor :=
  {| text_ := "The capital of France is "; images_ := [] |}.

Definition sample_state_1 : StreamExecutor :=
  {| text_ := "Describe the image."; images_ := [("cat.png", "aGVsbG8=")] |}.

Definition sample_state_2 : StreamExecutor :=
  {| text_ := "Describe the images.";
     images_ := [("cat.png", "aGVsbG8="); ("dog.png", "d29ybGQ=")] |}.

Definition sample_params : SglSamplingParams :=
  {| dtype := DtypeNone;
     return_logprob := None;
     logprob_start_len := None;
     top_logprobs_num := None;
     return_text_in_logprobs := None;
     to_srt_kwargs := <["temperature" := VFloat float_zero]>
                        {[ "max_new_tokens" := VInt 16 ]} |}.

Definition sample_config : GlobalConfig :=
  {| skip_special_tokens_in_output := true;
     spaces_between_special_tokens_in_out := true |}.

Definition sample_meta (p : Z) (score : spec_float) : meta_info :=
  {| prompt_tokens := p;
     completion_tokens := 0;
     normalized_prompt_logprob := score;
     input_token_logprobs := [];
     output_token_logprobs := [] |}.

Definition ok_reply (d : json_doc) : reply :=
  Reply {| status_code := 200; body := Some d; lines := [] |}.

(** A server that answers the priming call with 7 prompt tokens and scores
    the choices "Paris", "London", "Rome" as -0.25, -1.5, -0.25. *)
Definition sample_world : world :=
  {| sent := [];
     inbox := [ok_reply (DocGeneration "" (sample_meta 7 float_zero));
               ok_reply (DocBatch [("", sample_meta 8 float_minus_quarter);
                                   ("", sample_meta 8 float_minus_1_5);
                                   ("", sample_meta 8 float_minus_quarter)])] |}.

Definition sample_choices : list string := ["Paris"; "London"; "Rome"].

(** A server that answers the priming call and scores the choices
    "Paris", "London", "Rome" as -0.25, NaN, 1.0. *)
Definition nan_world : world :=
  {| sent := [];
     inbox := [ok_reply (DocGeneration "" (sample_meta 7 float_zero));
               ok_reply (DocBatch [("", sample_meta 8 float_minus_quarter);
                                   ("", sample_meta 8 S754_nan);
                                   ("", sample_meta 8 float_one)])] |}.

(** Modelled from the spec: the attributes [BaseBackend.__init__] leaves on
    the instance, [BaseBackend] not being part of the sources.  The spec
    gives a session its endpoint configuration and the model metadata, all
    assigned by [RuntimeEndpoint.__init__]; nothing else is inherited. *)
Definition base_backend_attrs : gmap string pyval := ∅.

(** The session a constructor call builds against a server that answers
    the metadata fetch. *)
Definition constructed : result RuntimeEndpoint * world :=
  __init__ (fun _ => {| template_name := "default" |}) base_backend_attrs
       "http://localhost:30000" (Some "sk-123456") None
       {| sent := [];
          inbox := [ok_reply (DocModelInfo "meta-llama/Meta-Llama-3.1-8B-Instruct");
                    ok_reply (DocOther "ok")] |}.

(** A server that rejects the next request with status 400. *)
Definition rejecting_world : world :=
  {| sent := [];
     inbox := [Reply {| status_code := 400;
                        body := Some (DocOther "unknown request id");
                        lines := [] |}] |}.

(** A server that answers the next request with status 500 and a body
    that is not a JSON document. *)
Definition garbled_world : world :=
  {| sent := [];
     inbox := [Reply {| status_code := 500; body := None; lines := [] |}] |}.

(** A stand-in for [json.loads] on payloads of the form [" text"]. *)
Definition toy_loads (payload : string) : option json_doc :=
  match payload with
  | String " " text => Some (DocGeneration text (sample_meta 3 float_zero))
  | _ => None
  end.

(** A server that streams the snapshots "He" and "Hello". *)
Definition streaming_world : world :=
  {| sent := [];
     inbox := [Reply {| status_code := 200;
                        body := None;
                        lines := ["data: He"; ""; "data: Hello"; ""; "data: [DONE]"] |}] |}.

(** ** Further vocabulary *)

(** The request the constructor issues. *)
Definition model_info_request (url : string) (key ver : option string) : HttpRequest :=
  {| req_url := url +:+ "/get_model_info";
     req_json := None;
     req_stream := false;
     req_api_key := Some key;
     req_auth_token := None;
     req_verify := ver |}.

(** The transport answers the next request of [w] with status 200 and the
    model information [p]. *)
Definition answers_model_info (w : world) (p : string) : Prop :=
  exists res rest,
    inbox w = Reply res :: rest
    /\ status_code res = 200
    /\ body res = Some (DocModelInfo p).

(** [chunk and chunk.startswith("data:")] *)
Definition is_data_line (chunk : string) : bool :=
  str_truthy chunk && startswith chunk "data:".

(** The text of a rejected datatype selector in the error message. *)
Definition dtype_text (sp : SglSamplingParams) : string :=
  match dtype sp with
  | DtypeStr d => d
  | DtypeOther repr => repr
  | _ => ""
  end.

Definition sample_template (path : string) : ChatTemplate :=
  {| template_name := "template of " +:+ path |}.

(** A server that answers the metadata fetch. *)
Definition model_info_world : world :=
  {| sent := [];
     inbox := [ok_reply (DocModelInfo "meta-llama/Meta-Llama-3.1-8B-Instruct")] |}.

(** A server that answers a generation with the text " Paris." *)
Definition generation_world : world :=
  {| sent := [];
     inbox := [ok_reply (DocGeneration " Paris." (sample_meta 7 float_zero))] |}.

(** How a call that only checks the status of its reply ends in [w]:
    normally on status 200, with the runtime error carrying the decoded
    body on another status, with the decoding error when that body is not
    JSON, and with the connection error when the server is unreachable. *)
Definition status_outcome (w : world) (r : result unit) : Prop :=
  match inbox w with
  | Reply res :: _ =>
      if status_code res =? 200 then r = Ok tt
      else match body res with
           | Some d => r = Raise (RuntimeError (ArgDoc d))
           | None => r = Raise JSONDecodeError
           end
  | _ => r = Raise ConnectionError
  end.

Definition int_params : SglSamplingParams :=
  {| dtype := DtypeStr "int";
     return_logprob := Some true;
     logprob_start_len := Some 3;
     top_logprobs_num := None;
     return_text_in_logprobs := None;
     to_srt_kwargs := <["skip_special_tokens" := VBool false]>
                        {[ "max_new_tokens" := VInt 16 ]} |}.

Definition float_params : SglSamplingParams :=
  {| dtype := DtypeStr "float";
     return_logprob := None;
     logprob_start_len := None;
     top_logprobs_num := None;
     return_text_in_logprobs := None;
     to_srt_kwargs := ∅ |}.

(** A [json.loads] that decodes nothing. *)
Definition no_loads (payload : string) : option json_doc := None.

(** [test_b.py] cannot be started, every other file succeeds. *)
Definition broken_worker (f : string) : behaviour :=
  if String.eqb f "test_b.py" then StartFails else Exits 0.

(** ** The baseline servers and the launcher *)

(** The next answers of [n] are the responses [ress], all with status
    200, and [rest] after them. *)
Definition all_ok (n : net) (ress : list PostResponse)
           (rest : list (option PostResponse)) : Prop :=
  answers n = (Some <$> ress) ++ rest
  /\ Forall (fun res => post_status res = 200) ress.

(** The request [call_select_vllm] posts for a choice. *)
Definition vllm_select_request (url context choice : string) : PostRequest :=
  {| post_url := url;
     post_json := <["prompt_logprobs" := VInt 1]>
                    (<["max_tokens" := VInt 1]>
                       {[ "prompt" := VStr (context +:+ choice) ]}) |}.

(** The score [call_select_vllm] reads off a response with a JSON body. *)
Definition response_score (res : PostResponse) : spec_float :=
  match post_body res with
  | Some d => doc_prompt_score d
  | None => S754_zero false
  end.

(** The body of the response is JSON and carries no ["prompt_score"]. *)
Definition unscored (res : PostResponse) : Prop :=
  exists d, post_body res = Some d /\ doc_prompt_score d = S754_zero false.

(** A server that scores three posts -0.25, NaN and 1.0. *)
Definition nan_net : net :=
  {| posted := [];
     answers :=
       [Some {| post_status := 200; post_body := Some (ReplyTexts [] (Some float_minus_quarter)) |};
        Some {| post_status := 200; post_body := Some (ReplyTexts [] (Some S754_nan)) |};
        Some {| post_status := 200; post_body := Some (ReplyTexts [] (Some float_one)) |}] |}.

(** A server that scores three posts -1.5, -0.25 and -0.25. *)
Definition scoring_net : net :=
  {| posted := [];
     answers :=
       [Some {| post_status := 200; post_body := Some (ReplyTexts [] (Some float_minus_1_5)) |};
        Some {| post_status := 200; post_body := Some (ReplyTexts [] (Some float_minus_quarter)) |};
        Some {| post_status := 200; post_body := Some (ReplyTexts [] (Some float_minus_quarter)) |}] |}.

(** The request [call_select_lightllm] posts for a choice. *)
Definition lightllm_select_request (url context choice : string) : PostRequest :=
  {| post_url := url;
     post_json := <["parameters" := VDict {[ "max_new_tokens" := VInt 1 ]}]>
                    {[ "inputs" := VStr (context +:+ choice) ]} |}.

(** The number of occurrences of a character in a string. *)
Fixpoint count_char (c : ascii) (s : string) : nat :=
  match s with
  | EmptyString => 0%nat
  | String d r => ((if Ascii.eqb d c then 1 else 0) + count_char c r)%nat
  end.

(** The [i]-th time check of the launcher finds time left. *)
Definition in_time (env : launch_env) (timeout : spec_float) (i : nat) : bool :=
  SFltb (SFsub 53 1024 (now env i) (now env 0)) timeout.

(** The poll answered with status 200. *)
Definition is_200 (a : option Z) : bool :=
  match a with
  | Some status_code => status_code =? 200
  | None => false
  end.

(** The poll of the launcher. *)
Definition poll_of (base_url : string) (api_key : option string) : string * string :=
  (base_url +:+ "/v1/models", bearer api_key).

(** The backends [_get_call_select] has no branch for. *)
Definition no_select : list string := ["outlines"; "ginfer"; "srt-raw"; "llama.cpp"].

Definition sample_args (backend : string) (port : option Z) : Namespace :=
  {| ns_backend := backend;
     ns_host := "http://127.0.0.1";
     ns_port := port;
     ns_model_path := "meta-llama/Llama-2-7b-chat-hf";
     ns_n_ctx := 4096 |}.

Definition sample_flags : ParallelFlags :=
  {| enable_parallel_decoding := true; enable_parallel_encoding := true |}.

(** A server that echoes the prompt "Q: 2+2? A:" before its two
    completions. *)
Definition echo_net : net :=
  {| posted := [];
     answers := [Some {| post_status := 200;
                         post_body := Some (ReplyTexts ["Q: 2+2? A: 4"; "Q: 2+2? A: four"]
                                                       None) |}] |}.

(** A server that answers three posts with status 200 and no score. *)
Definition plain_net : net :=
  {| posted := [];
     answers := replicate 3 (Some {| post_status := 200; post_body := Some ReplyObject |}) |}.

(** A server that answers with status 500. *)
Definition failing_net : net :=
  {| posted := [];
     answers := [Some {| post_status := 500; post_body := None |}] |}.

(** A clock that advances 10 seconds per reading, and a server that
    answers the third poll with 200 after one refused connection and one
    status 503. *)
Definition sample_launch_env : launch_env :=
  {| now := fun i =>
       match i with
       | 0%nat => S754_zero false
       | 1%nat => S754_finite false 5629499534213120 (-49)     (* 10.0 *)
       | 2%nat => S754_finite false 5629499534213120 (-48)     (* 20.0 *)
       | _ => S754_finite false 8444249301319680 (-48)         (* 30.0 *)
       end;
     answer := fun i =>
       match i with
       | 0%nat => None
       | 1%nat => Some 503
       | _ => Some 200
       end |}.

(** 300.0 *)
Definition float_300 : spec_float := S754_finite false 5277655813324800 (-44).

(** 25.0 *)
Definition float_25 : spec_float := S754_finite false 7036874417766400 (-48).

(** * Properties *)

(** ** Floats and [numpy.argmax] *)

Lemma SFcompare_key x y :
  match SFcompare x y, float_key x, float_key y with
  | Some Lt, Some a, Some b => key_lt a b
  | Some Eq, Some a, Some b => a = b
  | Some Gt, Some a, Some b => key_lt b a
  | None, None, _ | None, _, None => True
  | _, _, _ => False
  end.
Proof.
  destruct x as [sx|sx| |sx mx e1], y as [sy|sy| |sy my e2];
    try destruct sx; try destruct sy; simpl; unfold key_lt; simpl;
    try lia; try exact I; try reflexivity.
  - destruct (Z.compare_spec e1 e2); simpl; try lia.
    rewrite Pos.compare_cont_spec. simpl.
    destruct (Pos.compare_spec mx my); simpl; try lia. subst; reflexivity.
  - destruct (Z.compare_spec e1 e2); simpl; try lia.
    rewrite Pos.compare_cont_spec. simpl.
    destruct (Pos.compare_spec mx my); simpl; try lia. subst; reflexivity.
Qed.


Lemma key_lt_asym a b : key_lt a b -> key_lt b a -> False.
Proof. destruct a as [[a1 a2] a3], b as [[b1 b2] b3]. unfold key_lt. simpl. lia. Qed.

Lemma key_lt_irrefl a : key_lt a a -> False.
Proof. intros H. exact (key_lt_asym a a H H). Qed.

Lemma key_lt_trans a b c : key_lt a b -> key_lt b c -> key_lt a c.
Proof.
  destruct a as [[a1 a2] a3], b as [[b1 b2] b3], c as [[c1 c2] c3].
  unfold key_lt. simpl. lia.
Qed.

Lemma key_total a b : key_lt a b \/ a = b \/ key_lt b a.
Proof.
  destruct a as [[a1 a2] a3], b as [[b1 b2] b3]. unfold key_lt. simpl.
  destruct (Z.lt_total a1 b1) as [?|[?|?]]; [lia| |lia].
  destruct (Z.lt_total a2 b2) as [?|[?|?]]; [lia| |lia].
  destruct (Z.lt_total a3 b3) as [?|[?|?]]; [lia| |lia].
  right; left. congruence.
Qed.

Lemma SFleb_key x y :
  SFleb x y = true <-> exists a b, float_key x = Some a /\ float_key y = Some b /\ key_le a b.
Proof.
  pose proof (SFcompare_key x y) as H. unfold SFleb, key_le.
  destruct (SFcompare x y) as [[]|], (float_key x) as [a|], (float_key y) as [b|];
    try contradiction; (split; [intros E | intros (a' & b' & Ha & Hb & Hab)]);
    try discriminate; try reflexivity.
  - exists a, b. auto.
  - exists a, b. auto.
  - injection Ha as <-. injection Hb as <-. destruct Hab as [Hab | ->].
    + destruct (key_lt_asym _ _ H Hab).
    + destruct (key_lt_irrefl _ H).
Qed.

Lemma SFltb_key x y :
  SFltb x y = true <-> exists a b, float_key x = Some a /\ float_key y = Some b /\ key_lt a b.
Proof.
  pose proof (SFcompare_key x y) as H. unfold SFltb.
  destruct (SFcompare x y) as [[]|], (float_key x) as [a|], (float_key y) as [b|];
    try contradiction; (split; [intros E | intros (a' & b' & Ha & Hb & Hab)]);
    try discriminate; try reflexivity.
  - injection Ha as <-. injection Hb as <-. subst. destruct (key_lt_irrefl _ Hab).
  - exists a, b. auto.
  - injection Ha as <-. injection Hb as <-. destruct (key_lt_asym _ _ H Hab).
Qed.

Lemma float_key_nan x : is_Some (float_key x) <-> x <> S754_nan.
Proof.
  destruct x as [s|s| |s m e]; try destruct s; simpl; split; intros H;
    try congruence; try (eexists; reflexivity). destruct H; discriminate.
Qed.

Lemma SFleb_trans x y z : SFleb x y = true -> SFleb y z = true -> SFleb x z = true.
Proof.
  rewrite !SFleb_key. intros (a & b & Ha & Hb & Hab) (b' & c & Hb' & Hc & Hbc).
  rewrite Hb in Hb'. injection Hb' as <-. exists a, c. repeat split; auto.
  unfold key_le in *. destruct Hab as [Hab | ->], Hbc as [Hbc | ->]; auto.
  left. eapply key_lt_trans; eauto.
Qed.

Lemma SFleb_ltb_trans x y z : SFleb x y = true -> SFltb y z = true -> SFltb x z = true.
Proof.
  rewrite SFleb_key, !SFltb_key. intros (a & b & Ha & Hb & Hab) (b' & c & Hb' & Hc & Hbc).
  rewrite Hb in Hb'. injection Hb' as <-. exists a, c. repeat split; auto.
  destruct Hab as [Hab | ->]; auto. eapply key_lt_trans; eauto.
Qed.

Lemma SFltb_leb x y : SFltb x y = true -> SFleb x y = true.
Proof.
  rewrite SFleb_key, SFltb_key. intros (a & b & Ha & Hb & Hab).
  exists a, b. repeat split; auto. now left.
Qed.

Lemma SFleb_false_ltb x y :
  x <> S754_nan -> y <> S754_nan -> SFleb x y = false -> SFltb y x = true.
Proof.
  intros Hx Hy H. apply float_key_nan in Hx as [a Ha]. apply float_key_nan in Hy as [b Hb].
  apply SFltb_key. exists b, a. repeat split; auto.
  destruct (key_total a b) as [Hab|[Hab|Hab]]; auto; exfalso;
    (assert (SFleb x y = true) as E; [|congruence]);
    apply SFleb_key; exists a, b; repeat split; auto; [now left | now right].
Qed.

Lemma SFltb_leb_false x y : SFltb x y = true -> SFleb y x = false.
Proof.
  rewrite SFltb_key. intros (a & b & Ha & Hb & Hab).
  destruct (SFleb y x) eqn:E; [|reflexivity]. apply SFleb_key in E as (b' & a' & Hb' & Ha' & Hba).
  rewrite Ha in Ha'. rewrite Hb in Hb'. injection Ha' as <-. injection Hb' as <-.
  destruct Hba as [Hba | ->]; [destruct (key_lt_asym _ _ Hab Hba) | destruct (key_lt_irrefl _ Hab)].
Qed.

Lemma SFleb_refl x : x <> S754_nan -> SFleb x x = true.
Proof.
  intros Hx. apply float_key_nan in Hx as [a Ha]. apply SFleb_key. exists a, a.
  repeat split; auto. now right.
Qed.

Lemma argmax_scan_first_max ip : forall done mp max_ind,
  no_nan (done ++ ip) ->
  done !! max_ind = Some mp ->
  is_first_max done max_ind ->
  is_first_max (done ++ ip) (argmax_scan mp max_ind (length done) ip).
Proof.
  induction ip as [|x rest IH]; intros done mp max_ind Hnan Hmp Hmax; simpl.
  - now rewrite app_nil_r.
  - assert (Hx : x <> S754_nan).
    { apply Forall_app in Hnan as [_ Hnan]. now inversion Hnan. }
    assert (Hm : mp <> S754_nan).
    { apply Forall_app in Hnan as [Hnan _].
      rewrite Forall_forall in Hnan. apply Hnan.
      eapply list_elem_of_lookup_2, Hmp. }
    destruct Hmax as (best & Hbest & Hall & Hbefore).
    rewrite Hmp in Hbest. injection Hbest as <-.
    replace (done ++ x :: rest) with ((done ++ [x]) ++ rest) in *
      by now rewrite <- app_assoc.
    replace (S (length done)) with (length (done ++ [x]))
      by (rewrite length_app; simpl; lia).
    destruct (SFleb x mp) eqn:Hle; simpl.
    + apply IH; [assumption | now apply lookup_app_l_Some |].
      exists mp. split; [now apply lookup_app_l_Some|]. split.
      * intros j y Hj. apply lookup_app_Some in Hj as [Hj | [_ Hj]]; [eauto|].
        apply list_lookup_singleton_Some in Hj as [_ <-]. assumption.
      * intros j y Hlt Hj. apply lookup_app_Some in Hj as [Hj | [Hge _]]; [eauto|].
        apply lookup_lt_Some in Hmp. lia.
    + destruct x as [s|s| |s m e]; try congruence; simpl;
        (apply IH; [assumption | apply list_lookup_middle; reflexivity |]);
        (eexists; split; [apply list_lookup_middle; reflexivity|]);
        apply SFleb_false_ltb in Hle; try assumption;
        (split;
         [ intros j y Hj; apply lookup_app_Some in Hj as [Hj | [_ Hj]];
           [ apply SFltb_leb; eapply SFleb_ltb_trans; eauto
           | apply list_lookup_singleton_Some in Hj as [_ <-];
             now apply SFleb_refl ]
         | intros j y Hlt Hj; apply lookup_app_Some in Hj as [Hj | [Hge _]];
           [ eapply SFleb_ltb_trans; eauto | lia ] ]).
Qed.

Lemma np_argmax_first_max (a : list spec_float) :
  a <> [] -> no_nan a -> exists i, np_argmax a = Ok i /\ is_first_max a i.
Proof.
  destruct a as [|x rest]; [congruence|]. intros _ Hnan.
  assert (Hx : x <> S754_nan) by now inversion Hnan.
  unfold np_argmax. replace (is_nan x) with false by now destruct x.
  eexists. split; [reflexivity|].
  apply (argmax_scan_first_max rest [x] x 0%nat); [assumption | reflexivity |].
  exists x. split; [reflexivity|]. split.
  - intros j y Hj. apply list_lookup_singleton_Some in Hj as [_ <-]. now apply SFleb_refl.
  - intros j y Hlt. lia.
Qed.

Lemma SFleb_nan mp : SFleb S754_nan mp = false.
Proof. now destruct mp. Qed.

Lemma argmax_scan_first_nan ip : forall mp max_ind i k,
  ip !! k = Some S754_nan ->
  (forall j x, (j < k)%nat -> ip !! j = Some x -> x <> S754_nan) ->
  argmax_scan mp max_ind i ip = (i + k)%nat.
Proof.
  induction ip as [|x rest IH]; intros mp max_ind i k Hk Hbefore; [discriminate|].
  destruct k as [|k]; simpl in *.
  - injection Hk as ->. rewrite SFleb_nan. simpl. lia.
  - assert (Hx : is_nan x = false).
    { specialize (Hbefore 0%nat x ltac:(lia) eq_refl). now destruct x. }
    rewrite Hx.
    assert (Hrest : forall j y, (j < k)%nat -> rest !! j = Some y -> y <> S754_nan).
    { intros j y Hj Hy. apply (Hbefore (S j)); [lia | exact Hy]. }
    destruct (negb (SFleb x mp)); rewrite (IH _ _ (S i) k Hk Hrest); lia.
Qed.

Lemma np_argmax_first_nan (a : list spec_float) i :
  is_first_nan a i -> np_argmax a = Ok i.
Proof.
  intros [Hi Hbefore]. destruct a as [|x rest]; [discriminate|].
  destruct i as [|k]; simpl in *.
  - now injection Hi as ->.
  - assert (Hx : is_nan x = false).
    { specialize (Hbefore 0%nat x ltac:(lia) eq_refl). now destruct x. }
    rewrite Hx. f_equal. apply argmax_scan_first_nan; [exact Hi|].
    intros j y Hj Hy. apply (Hbefore (S j)); [lia | exact Hy].
Qed.

(** [numpy.argmax] on a non-empty array: the first maximum when no
    element is a NaN, the first NaN otherwise. *)
Lemma np_argmax_spec (a : list spec_float) :
  a <> [] ->
  exists i, np_argmax a = Ok i
    /\ (no_nan a -> is_first_max a i)
    /\ (forall j, is_first_nan a j -> i = j).
Proof.
  intros Hne. destruct (np_argmax a) as [i|e] eqn:E.
  - exists i. split; [reflexivity|]. split.
    + intros Hnan. destruct (np_argmax_first_max a Hne Hnan) as (i' & Hi' & Hmax).
      congruence.
    + intros j Hj. apply np_argmax_first_nan in Hj. congruence.
  - destruct a as [|x rest]; [congruence|]. simpl in E. destruct (is_nan x); discriminate.
Qed.

Lemma np_argmax_in_range (a : list spec_float) i :
  np_argmax a = Ok i -> (i < length a)%nat.
Proof.
  assert (Hscan : forall ip mp max_ind k,
             (max_ind < k)%nat ->
             (argmax_scan mp max_ind k ip < k + length ip)%nat).
  { induction ip as [|x rest IH]; intros mp max_ind k Hk; simpl; [lia|].
    destruct (negb (SFleb x mp)); [destruct (is_nan x); [lia|] |];
      [specialize (IH x k (S k)) | specialize (IH mp max_ind (S k))]; lia. }
  destruct a as [|x rest]; simpl; [discriminate|].
  destruct (is_nan x); intros [= <-]; [lia|].
  specialize (Hscan rest x 0%nat 1%nat). lia.
Qed.

(** ** The bounded test runner *)

Section RunnerFacts.
Variable worker : string -> behaviour.

Lemma for_files_started_prefix files :
  started (for_files worker files).1 `prefix_of` files.
Proof.
  induction files as [|f rest IH]; simpl.
  - reflexivity.
  - unfold run_one_file. destruct (worker f) as [c| |] eqn:Hw; simpl.
    + unfold exitcode. rewrite Hw. destruct (bool_decide (Some c = Some 0)); simpl.
      * destruct (for_files worker rest) as [evs fl]. simpl in *.
        now apply prefix_cons.
      * apply (prefix_cons f []), prefix_nil.
    + apply (prefix_cons f []), prefix_nil.
    + apply (prefix_cons f []), prefix_nil.
Qed.

Lemma started_app evs evs' : started (evs ++ evs') = started evs ++ started evs'.
Proof. unfold started. apply omap_app. Qed.

Lemma for_files_app pre post :
  all_succeed worker pre ->
  for_files worker (pre ++ post) =
    ((EvStart <$> pre) ++ (for_files worker post).1, (for_files worker post).2).
Proof.
  induction 1 as [|f pre Hf _ IH]; simpl.
  - now destruct (for_files worker post).
  - unfold run_one_file. rewrite Hf. simpl. unfold exitcode. rewrite Hf. simpl.
    now rewrite IH.
Qed.

Lemma for_files_all_succeed pre :
  all_succeed worker pre -> for_files worker pre = (EvStart <$> pre, LoopEnd).
Proof.
  intros H. rewrite <- (app_nil_r pre) at 1. rewrite for_files_app by assumption.
  simpl. now rewrite app_nil_r.
Qed.

(** The timeout path: the hanging worker is terminated, the runner sleeps
    five seconds, prints, and returns [False] at once. *)
Lemma run_unittest_files_timeout pre f post :
  all_succeed worker pre -> worker f = Hangs ->
  run_unittest_files worker (pre ++ f :: post) =
    ((EvStart <$> pre) ++
       [EvStart f; EvTerminate f; EvSleep 5; EvPrint (MsgTimeout f)],
     Ok (VBool false)).
Proof.
  intros Hpre Hf. unfold run_unittest_files. rewrite for_files_app by assumption.
  simpl. unfold run_one_file. rewrite Hf. reflexivity.
Qed.
End RunnerFacts.

(** C5. The files are started in input order: the files started are a
    prefix of the input.  When every file before [f] succeeds and the worker
    of [f] ends within the timeout with a non-zero exit status, the run
    starts exactly the files up to [f], none after it, prints the failure
    and returns -1.  When every file succeeds, the run starts all of them
    and returns 0. *)
Theorem run_unittest_files_fail_fast (worker : string -> behaviour)
        (pre post : list string) :
  all_succeed worker pre ->
  started (run_unittest_files worker (pre ++ post)).1 `prefix_of` (pre ++ post)
  /\ run_unittest_files worker pre =
       ((EvStart <$> pre) ++ [EvPrint MsgSuccess], Ok (VInt 0))
  /\ forall f c, worker f = Exits c -> c <> 0 ->
       run_unittest_files worker (pre ++ f :: post) =
         ((EvStart <$> pre) ++ [EvStart f; EvPrint MsgFail], Ok (VInt (-1))).
Proof.
  intros Hpre. split; [|split].
  - pose proof (for_files_started_prefix worker (pre ++ post)) as H.
    unfold run_unittest_files.
    destruct (for_files worker (pre ++ post)) as [evs fl]. simpl in H.
    destruct fl; simpl; rewrite ?started_app, ?app_nil_r; assumption.
  - unfold run_unittest_files. now rewrite for_files_all_succeed.
  - intros f c Hf Hc. unfold run_unittest_files.
    rewrite for_files_app by assumption. simpl.
    unfold run_one_file. rewrite Hf. simpl. unfold exitcode. rewrite Hf.
    rewrite bool_decide_eq_false_2 by congruence. simpl.
    now rewrite <- app_assoc.
Qed.

Lemma run_unittest_files_fail_fast_witness :
  run_unittest_files abc_worker ["test_a.py"; "test_b.py"; "test_c.py"] =
    ([EvStart "test_a.py"; EvStart "test_b.py"; EvPrint MsgFail], Ok (VInt (-1))).
Proof.
  assert (Hpre : all_succeed abc_worker ["test_a.py"]) by (repeat constructor).
  destruct (run_unittest_files_fail_fast abc_worker ["test_a.py"] ["test_c.py"] Hpre)
    as (_ & _ & H).
  apply (H "test_b.py" 1); [reflexivity | lia].
Defined.

(** C4. A run whose first file hangs: the worker is terminated, the
    runner sleeps five seconds and prints the timeout, the next file is not
    started, and the value returned is [False].  [False] equals 0, the
    value a run returns when every file succeeds, and differs from -1, the
    value a run returns when a file fails. *)
Theorem run_unittest_files_timeout_returns_false :
  run_unittest_files hang_worker ["test_hang.py"; "test_next.py"] =
    ([EvStart "test_hang.py"; EvTerminate "test_hang.py"; EvSleep 5;
      EvPrint (MsgTimeout "test_hang.py")], Ok (VBool false))
  /\ (run_unittest_files (fun _ => Exits 0) ["test_hang.py"; "test_next.py"]).2 =
       Ok (VInt 0)
  /\ (run_unittest_files abc_worker ["test_a.py"; "test_b.py"]).2 = Ok (VInt (-1))
  /\ py_eq (VBool false) (VInt 0) = true
  /\ py_eq (VBool false) (VInt (-1)) = false.
Proof. repeat split. Qed.

(** ** The monad of the client *)

Lemma bind_ok {A B} (m : exec A) (k : A -> exec B) w a w' :
  m w = (Ok a, w') -> bind m k w = k a w'.
Proof. intros H. unfold bind. now rewrite H. Qed.

Lemma bind_raise {A B} (m : exec A) (k : A -> exec B) w e w' :
  m w = (Raise e, w') -> bind m k w = (Raise e, w').
Proof. intros H. unfold bind. now rewrite H. Qed.

Lemma _add_images_one_or_none s data w :
  (length (images_ s) <= 1)%nat ->
  _add_images s data w = (Ok (with_image s data), w).
Proof.
  unfold _add_images, with_image. destruct (images_ s) as [|img [|img' rest]]; simpl;
    [reflexivity | reflexivity | lia].
Qed.

Lemma _add_images_many s data w :
  (1 < length (images_ s))%nat ->
  _add_images s data w = (Raise (AssertionError (Some "Only support one image.")), w).
Proof.
  unfold _add_images. destruct (images_ s) as [|img [|img' rest]]; simpl;
    [lia | lia | reflexivity].
Qed.

Lemma _add_images_cases s data w :
  _add_images s data w = (Ok (with_image s data), w)
  \/ _add_images s data w = (Raise (AssertionError (Some "Only support one image.")), w).
Proof.
  destruct (le_lt_dec (length (images_ s)) 1).
  - left. now apply _add_images_one_or_none.
  - right. now apply _add_images_many.
Qed.

Lemma self_request_reply self path data streaming w res rest :
  inbox w = Reply res :: rest ->
  self_request self path (Some data) streaming w =
    (Ok res, {| sent := sent w ++ [request_of self path data streaming]; inbox := rest |}).
Proof. intros H. unfold self_request, http_request. now rewrite H. Qed.

Lemma self_request_sent self path data streaming w :
  sent (self_request self path (Some data) streaming w).2 =
    sent w ++ [request_of self path data streaming].
Proof.
  unfold self_request, http_request. destruct (inbox w) as [|[|res] rest]; reflexivity.
Qed.

Lemma _assert_success_200 res w :
  status_code res = 200 -> _assert_success res w = (Ok tt, w).
Proof. intros H. unfold _assert_success. now rewrite H. Qed.

Lemma _assert_success_world res w : (_assert_success res w).2 = w.
Proof.
  unfold _assert_success, bind, json, raise, ret.
  destruct (negb _); [destruct (body res)|]; reflexivity.
Qed.

Lemma _assert_success_not_200_any res w :
  status_code res <> 200 ->
  _assert_success res w =
    (match body res with
     | Some d => Raise (RuntimeError (ArgDoc d))
     | None => Raise JSONDecodeError
     end, w).
Proof.
  intros H. unfold _assert_success. apply Z.eqb_neq in H. rewrite H. simpl.
  unfold bind, json. now destruct (body res).
Qed.

Lemma np_argmax_raises a e : np_argmax a = Raise e -> e = ValueError.
Proof. destruct a as [|x rest]; simpl; [congruence|]. destruct (is_nan x); discriminate. Qed.

Lemma list_getitem_raises {A} (l : list A) i e :
  list_getitem l i = Raise e -> e = IndexError.
Proof. unfold list_getitem. destruct (l !! i); [discriminate | congruence]. Qed.

Lemma list_getitem_ok {A} (l : list A) i x :
  list_getitem l i = Ok x -> l !! i = Some x.
Proof. unfold list_getitem. destruct (l !! i); [congruence | discriminate]. Qed.

(** A postcondition of [bind m k] follows from one for [k] after every
    normal outcome of [m], and one for every exception of [m]. *)
Lemma bind_post {A B} (P : result B * world -> Prop) (m : exec A) (k : A -> exec B) w :
  (forall a w', m w = (Ok a, w') -> P (k a w')) ->
  (forall e w', m w = (Raise e, w') -> P (Raise e, w')) ->
  P (bind m k w).
Proof. unfold bind. destruct (m w) as [[a|e] w']; auto. Qed.

Ltac exec_bind a w' E :=
  match goal with
  | |- context [bind ?m ?k ?w] =>
      pattern (bind m k w); apply bind_post; [intros a w' E | intros a w' E]
  end.

(** Opens the outcome [E] of a call of a primitive of the client. *)
Ltac crack E :=
  cbv beta iota zeta delta
    [_add_images self_request http_request _assert_success json
     doc_prompt_tokens doc_meta_info doc_text doc_items doc_model_path
     getattr_base bind assert_ ret raise lift] in E;
  repeat (match goal with
          | H : context [match ?x with _ => _ end] |- _ => destruct x eqn:?
          | H : context [if ?x then _ else _] |- _ => destruct x eqn:?
          end; cbv beta iota in *);
  simplify_eq.

Ltac exec_step :=
  let E := fresh "E" in
  match goal with
  | |- context [bind ?m ?k ?w] =>
      pattern (bind m k w); apply bind_post; intros ? ? E; crack E
  end.

(** ** [select] *)

(** C6. A temperature above [1e-5] makes [select] raise the assertion error
    of its first statement with the world untouched: no request was issued.
    With a temperature at most [1e-5] that assertion never fails, and, the
    program state holding at most one image, the priming request is
    issued. *)
Theorem select_temperature_precondition
        (self : RuntimeEndpoint) (s : StreamExecutor) (choices : list string)
        (temperature : spec_float) (w : world) :
  (SFltb float_1e_5 temperature = true ->
     select self s choices temperature w = (Raise (AssertionError None), w))
  /\ (SFleb temperature float_1e_5 = true ->
        (select self s choices temperature w).1 <> Raise (AssertionError None)
        /\ ((length (images_ s) <= 1)%nat ->
            exists later,
              sent (select self s choices temperature w).2 =
                sent w ++ request_of self "/generate" (with_image s (priming_data s)) false
                       :: later)).
Proof.
  split.
  - intros H. apply SFltb_leb_false in H. unfold select.
    apply bind_raise. unfold assert_. now rewrite H.
  - intros H. unfold select, assert_. rewrite H.
    rewrite (bind_ok _ _ w tt w) by reflexivity.
    split.
    + repeat (exec_step; simpl; try congruence);
        match goal with
        | H : np_argmax _ = Raise _ |- _ => apply np_argmax_raises in H; now subst
        | H : list_getitem _ _ = Raise _ |- _ => apply list_getitem_raises in H; now subst
        end.
    + intros Himg.
      erewrite bind_ok by (apply _add_images_one_or_none; exact Himg).
      exec_bind res w1 E;
        (assert (Hext : exists later, sent w1 = sent w ++
                   request_of self "/generate" (with_image s (priming_data s)) false :: later)
          by (exists []; apply (f_equal snd) in E; simpl in E; subst w1;
              apply self_request_sent));
        clear E; [|exact Hext].
      repeat (exec_step; simpl; try exact Hext);
        destruct Hext as [later ->]; simpl; rewrite <- ?app_assoc; simpl;
        eexists; reflexivity.
Qed.

Lemma select_temperature_precondition_witness :
  select sample_self sample_state sample_choices float_one sample_world =
    (Raise (AssertionError None), sample_world)
  /\ (select sample_self sample_state sample_choices float_zero sample_world).1 <>
       Raise (AssertionError None).
Proof.
  split.
  - apply (select_temperature_precondition sample_self sample_state sample_choices
             float_one sample_world).
    reflexivity.
  - destruct (select_temperature_precondition sample_self sample_state sample_choices
                float_zero sample_world) as [_ H].
    apply (H eq_refl).
Defined.

(** ** [generate] and the attached image *)

Lemma set_items_logprob_other sp (d : gmap string pyval) :
  set_items (logprob_items sp) d !! "image_data" = d !! "image_data".
Proof.
  unfold set_items, logprob_items.
  destruct (return_logprob sp), (logprob_start_len sp), (top_logprobs_num sp),
    (return_text_in_logprobs sp); simpl;
    repeat (rewrite lookup_insert_ne by discriminate); reflexivity.
Qed.

Lemma base_payload_no_image cfg s sp : base_payload cfg s sp !! "image_data" = None.
Proof.
  unfold base_payload. rewrite set_items_logprob_other.
  rewrite lookup_insert_ne by discriminate. now rewrite lookup_singleton_ne.
Qed.

Lemma request_data_ok cfg s sp w :
  dtype_ok sp = true -> request_data cfg s sp w = (Ok (base_payload cfg s sp), w).
Proof.
  unfold dtype_ok, request_data, base_payload, bind, ret, raise.
  destruct (dtype sp) as [| |d|r]; intros H; try discriminate; try reflexivity.
  now rewrite H.
Qed.

Lemma request_data_raises cfg s sp w :
  dtype_ok sp = false ->
  exists msg, request_data cfg s sp w = (Raise (RuntimeError (ArgMsg msg)), w).
Proof.
  unfold dtype_ok, request_data, bind, ret, raise.
  destruct (dtype sp) as [| |d|r]; intros H; try discriminate.
  - rewrite H. eexists. reflexivity.
  - eexists. reflexivity.
Qed.

Lemma generate_sent cfg self s sp w :
  dtype_ok sp = true -> (length (images_ s) <= 1)%nat ->
  sent (generate cfg self s sp w).2 =
    sent w ++ [request_of self "/generate" (with_image s (base_payload cfg s sp)) false].
Proof.
  intros Hd Himg. unfold generate.
  erewrite bind_ok by (apply request_data_ok; exact Hd).
  erewrite bind_ok by (apply _add_images_one_or_none; exact Himg).
  exec_bind res w1 E;
    (assert (Hw1 : sent w1 = sent w ++
               [request_of self "/generate" (with_image s (base_payload cfg s sp)) false])
      by (apply (f_equal snd) in E; simpl in E; subst w1; apply self_request_sent));
    clear E; [|exact Hw1].
  repeat (exec_step; simpl; try exact Hw1).
Qed.

(** C7. [generate] on a program state with more than one image raises
    before anything is sent: the assertion error of [_add_images], or the
    error of a rejected datatype selector, which is checked first.  With one
    image and an accepted selector the one request issued carries the data
    of the image under ["image_data"]; with no image the payload has no such
    key. *)
Theorem generate_image_rule (cfg : GlobalConfig) (self : RuntimeEndpoint)
        (s : StreamExecutor) (sp : SglSamplingParams) (w : world) :
  ((1 < length (images_ s))%nat ->
     exists e, generate cfg self s sp w = (Raise e, w)
       /\ (e = AssertionError (Some "Only support one image.")
           \/ exists msg, e = RuntimeError (ArgMsg msg)))
  /\ (dtype_ok sp = true -> forall img, images_ s = [img] ->
        exists data,
          sent (generate cfg self s sp w).2 =
            sent w ++ [request_of self "/generate" data false]
          /\ data !! "image_data" = Some (VStr img.2))
  /\ (dtype_ok sp = true -> images_ s = [] ->
        exists data,
          sent (generate cfg self s sp w).2 =
            sent w ++ [request_of self "/generate" data false]
          /\ data !! "image_data" = None).
Proof.
  split; [|split].
  - intros Himg. unfold generate. destruct (dtype_ok sp) eqn:Hd.
    + erewrite bind_ok by (apply request_data_ok; exact Hd).
      erewrite bind_raise by (apply _add_images_many; exact Himg).
      eexists. split; [reflexivity | now left].
    + destruct (request_data_raises cfg s sp w Hd) as [msg E].
      erewrite bind_raise by exact E.
      eexists. split; [reflexivity | right; now exists msg].
  - intros Hd img Himg. eexists. split.
    + apply generate_sent; [assumption | rewrite Himg; simpl; lia].
    + unfold with_image. rewrite Himg. apply lookup_insert_eq.
  - intros Hd Himg. eexists. split.
    + apply generate_sent; [assumption | rewrite Himg; simpl; lia].
    + unfold with_image. rewrite Himg. apply base_payload_no_image.
Qed.

Lemma generate_image_rule_witness :
  (exists e, generate sample_config sample_self sample_state_2 sample_params sample_world =
               (Raise e, sample_world)
     /\ (e = AssertionError (Some "Only support one image.")
         \/ exists msg, e = RuntimeError (ArgMsg msg)))
  /\ (exists data,
        sent (generate sample_config sample_self sample_state_1 sample_params sample_world).2 =
          sent sample_world ++ [request_of sample_self "/generate" data false]
        /\ data !! "image_data" = Some (VStr "aGVsbG8="))
  /\ (exists data,
        sent (generate sample_config sample_self sample_state sample_params sample_world).2 =
          sent sample_world ++ [request_of sample_self "/generate" data false]
        /\ data !! "image_data" = None).
Proof.
  split; [|split].
  - apply (generate_image_rule sample_config sample_self sample_state_2 sample_params
             sample_world).
    simpl. lia.
  - destruct (generate_image_rule sample_config sample_self sample_state_1 sample_params
                sample_world) as (_ & H & _).
    apply (H eq_refl ("cat.png", "aGVsbG8=") eq_refl).
  - destruct (generate_image_rule sample_config sample_self sample_state sample_params
                sample_world) as (_ & _ & H).
    apply (H eq_refl eq_refl).
Defined.

(** ** The scoring request of [select] *)

Lemma with_image_lookup_ne s (data : gmap string pyval) k :
  k <> "image_data" -> with_image s data !! k = data !! k.
Proof.
  intros Hk. unfold with_image. destruct (images_ s) as [|img rest]; [reflexivity|].
  now rewrite lookup_insert_ne.
Qed.

(** The run of [select] up to the scoring call, when the priming call
    succeeds. *)
Lemma select_after_priming self s choices temperature w res rest txt info :
  SFleb temperature float_1e_5 = true ->
  (length (images_ s) <= 1)%nat ->
  inbox w = Reply res :: rest ->
  status_code res = 200 ->
  body res = Some (DocGeneration txt info) ->
  select self s choices temperature w =
    (res' <- self_request self "/generate"
               (Some (with_image s (scoring_data s choices (prompt_tokens info)))) false ;;
     _assert_success res' ;;
     obj <- json res' ;;
     rs <- doc_items obj ;;
     let normalized_prompt_logprobs := (fun r => normalized_prompt_logprob r.2) <$> rs in
     idx <- lift (np_argmax normalized_prompt_logprobs) ;;
     decision <- lift (list_getitem choices idx) ;;
     ret (decision,
          normalized_prompt_logprobs,
          (fun r => input_token_logprobs r.2) <$> rs,
          (fun r => output_token_logprobs r.2) <$> rs))%exec
      {| sent := sent w ++ [request_of self "/generate" (with_image s (priming_data s)) false];
         inbox := rest |}.
Proof.
  intros Ht Himg Hin Hst Hbody. unfold select.
  erewrite bind_ok by (unfold assert_; rewrite Ht; reflexivity). cbv beta.
  erewrite bind_ok by (apply _add_images_one_or_none; exact Himg). cbv beta.
  erewrite bind_ok by (apply self_request_reply; exact Hin). cbv beta.
  erewrite bind_ok by (apply _assert_success_200; exact Hst). cbv beta.
  erewrite bind_ok by (unfold json; rewrite Hbody; reflexivity). cbv beta.
  erewrite bind_ok by reflexivity. cbv beta.
  erewrite bind_ok by (apply _add_images_one_or_none; exact Himg).
  reflexivity.
Qed.

(** C3. When the priming call reports [p] prompt tokens, [select] issues
    exactly one more request, to [/generate]: its text is the list of the
    prompt followed by each choice, its sampling parameters are
    [max_new_tokens = 0], [return_logprob] is [True] and [logprob_start_len]
    is [max(p - 2, 0)], which is 0 for every [p <= 2]. *)
Theorem select_scoring_request
        (self : RuntimeEndpoint) (s : StreamExecutor) (choices : list string)
        (temperature : spec_float) (w : world)
        (res : HttpResponse) (rest : list reply) (txt : string) (info : meta_info) :
  SFleb temperature float_1e_5 = true ->
  (length (images_ s) <= 1)%nat ->
  inbox w = Reply res :: rest ->
  status_code res = 200 ->
  body res = Some (DocGeneration txt info) ->
  exists data,
    sent (select self s choices temperature w).2 =
      sent w ++ [request_of self "/generate" (with_image s (priming_data s)) false;
                 request_of self "/generate" data false]
    /\ data !! "text" = Some (VList ((fun c => VStr (text_ s +:+ c)) <$> choices))
    /\ data !! "sampling_params" = Some (VDict {[ "max_new_tokens" := VInt 0 ]})
    /\ data !! "return_logprob" = Some (VBool true)
    /\ data !! "logprob_start_len" = Some (VInt (Z.max (prompt_tokens info - 2) 0))
    /\ (prompt_tokens info <= 2 -> data !! "logprob_start_len" = Some (VInt 0)).
Proof.
  intros Ht Himg Hin Hst Hbody.
  exists (with_image s (scoring_data s choices (prompt_tokens info))).
  split.
  - rewrite (select_after_priming self s choices temperature w res rest txt info)
      by assumption.
    set (w1 := {| sent := _; inbox := rest |}).
    exec_bind res' w2 E;
      (assert (Hw2 : sent w2 = sent w ++
                 [request_of self "/generate" (with_image s (priming_data s)) false;
                  request_of self "/generate"
                    (with_image s (scoring_data s choices (prompt_tokens info))) false])
        by (apply (f_equal snd) in E; simpl in E; subst w2;
            rewrite self_request_sent; subst w1; simpl;
            now rewrite <- app_assoc));
      clear E; [|exact Hw2].
    repeat (exec_step; simpl; try exact Hw2).
  - rewrite !with_image_lookup_ne by discriminate. unfold scoring_data, zero_new_tokens.
    split; [|split; [|split; [|split]]].
    + repeat (rewrite lookup_insert_ne by discriminate). apply lookup_singleton_eq.
    + repeat (rewrite lookup_insert_ne by discriminate). apply lookup_insert_eq.
    + rewrite lookup_insert_ne by discriminate. apply lookup_insert_eq.
    + apply lookup_insert_eq.
    + intros Hp. rewrite lookup_insert_eq. do 2 f_equal. lia.
Qed.

Lemma select_scoring_request_witness :
  exists data,
    sent (select sample_self sample_state sample_choices float_zero sample_world).2 =
      [request_of sample_self "/generate" (priming_data sample_state) false;
       request_of sample_self "/generate" data false]
    /\ data !! "text" =
         Some (VList [VStr "The capital of France is Paris";
                      VStr "The capital of France is London";
                      VStr "The capital of France is Rome"])
    /\ data !! "logprob_start_len" = Some (VInt 5).
Proof.
  destruct (select_scoring_request sample_self sample_state sample_choices float_zero
              sample_world _ _ _ _ eq_refl (le_S _ _ (le_n 0)) eq_refl eq_refl eq_refl)
    as (data & Hsent & Htext & _ & _ & Hstart & _).
  exists data. repeat split; assumption.
Defined.

(** ** [concatenate_and_append] *)

(** C9, as the code has it.  [concatenate_and_append] issues exactly one
    request whatever the identifiers are, to the path
    [/concate_and_append_request] under the base address, carrying the
    source identifiers and the destination identifier.  It returns on status
    200.  On any other status it raises: the runtime error, with the decoded
    body, when the body of the reply is a JSON document, and the decoding
    error when it is not. *)
Theorem concatenate_and_append_request
        (self : RuntimeEndpoint) (src_rids : list string) (dst_rid : string) (w : world) :
  sent (concatenate_and_append self src_rids dst_rid w).2 =
    sent w ++ [request_of self "/concate_and_append_request"
                 (<["dst_rid" := VStr dst_rid]>
                    {[ "src_rids" := VList (VStr <$> src_rids) ]}) false]
  /\ forall res rest, inbox w = Reply res :: rest ->
       (status_code res = 200 ->
          (concatenate_and_append self src_rids dst_rid w).1 = Ok tt)
       /\ (status_code res <> 200 ->
             (concatenate_and_append self src_rids dst_rid w).1 =
               match body res with
               | Some d => Raise (RuntimeError (ArgDoc d))
               | None => Raise JSONDecodeError
               end).
Proof.
  split.
  - unfold concatenate_and_append.
    exec_bind res w1 E;
      apply (f_equal snd) in E; simpl in E; subst w1; simpl.
    + rewrite _assert_success_world. apply self_request_sent.
    + apply self_request_sent.
  - intros res rest Hin. unfold concatenate_and_append.
    erewrite bind_ok by (apply self_request_reply; exact Hin).
    split.
    + intros Hst. now rewrite _assert_success_200.
    + intros Hst. now rewrite _assert_success_not_200_any.
Qed.

Lemma concatenate_and_append_request_witness :
  (concatenate_and_append sample_self ["rid-1"; "rid-2"] "rid-3" rejecting_world).1 =
    Raise (RuntimeError (ArgDoc (DocOther "unknown request id")))
  /\ (concatenate_and_append sample_self ["rid-1"; "rid-2"] "rid-3" garbled_world).1 =
       Raise JSONDecodeError.
Proof.
  split.
  - destruct (concatenate_and_append_request sample_self ["rid-1"; "rid-2"] "rid-3"
                rejecting_world) as [_ H].
    destruct (H _ _ eq_refl) as [_ H'].
    apply H'. discriminate.
  - destruct (concatenate_and_append_request sample_self ["rid-1"; "rid-2"] "rid-3"
                garbled_world) as [_ H].
    destruct (H _ _ eq_refl) as [_ H'].
    apply H'. discriminate.
Defined.

(** The request does not go to [/concatenate_and_append_request], and a
    reply of status 500 whose body is not a JSON document does not end the
    call by the runtime error. *)
Lemma concatenate_and_append_counterexample :
  (~ exists data,
       sent (concatenate_and_append sample_self ["rid-1"; "rid-2"] "rid-3" sample_world).2 =
         sent sample_world ++
           [request_of sample_self "/concatenate_and_append_request" data false])
  /\ inbox garbled_world = [Reply {| status_code := 500; body := None; lines := [] |}]
  /\ (concatenate_and_append sample_self ["rid-1"; "rid-2"] "rid-3" garbled_world).1 =
       Raise JSONDecodeError
  /\ ~ exists arg,
         (concatenate_and_append sample_self ["rid-1"; "rid-2"] "rid-3" garbled_world).1 =
           Raise (RuntimeError arg).
Proof.
  split; [|split; [|split]].
  - intros [data H]. apply (f_equal (fmap req_url)) in H. vm_compute in H. discriminate.
  - reflexivity.
  - reflexivity.
  - intros [arg H]. vm_compute in H. discriminate.
Qed.

(** ** The proxy calls *)

(** On a session built over attributes without [auth_token], the two
    calls that read [self.auth_token] raise before anything is sent. *)
Lemma auth_token_missing get_template super_attrs url key ver w0 self w1 :
  super_attrs !! "auth_token" = None ->
  __init__ get_template super_attrs url key ver w0 = (Ok self, w1) ->
  forall w,
    flush_cache self w = (Raise (AttributeError "auth_token"), w)
    /\ get_server_args self w = (Raise (AttributeError "auth_token"), w).
Proof.
  intros Hnone Hinit w.
  assert (Hattr : base_attrs self !! "auth_token" = None).
  { unfold __init__ in Hinit.
    repeat match type of Hinit with
           | bind ?m ?k ?w = _ =>
               let E := fresh "E" in
               unfold bind at 1 in Hinit; destruct (m w) as [[? | ?] ?] eqn:E;
               [clear E | discriminate]
           end.
    unfold ret in Hinit. injection Hinit as <- _. simpl.
    repeat (rewrite lookup_delete_ne by discriminate). exact Hnone. }
  unfold flush_cache, get_server_args, getattr_base, bind. rewrite Hattr. now split.
Qed.

(** C8. On the session a constructor call builds, [flush_cache] and
    [get_server_args] raise [AttributeError]: they read [self.auth_token],
    an attribute the constructor never assigns.  No request is issued, so
    the failure is neither the runtime error of a non-success status nor a
    transport failure. *)
Theorem proxy_calls_attribute_error :
  exists self w,
    constructed = (Ok self, w)
    /\ inbox w = [ok_reply (DocOther "ok")]
    /\ flush_cache self w = (Raise (AttributeError "auth_token"), w)
    /\ get_server_args self w = (Raise (AttributeError "auth_token"), w)
    /\ get_model_name self w = (Ok "meta-llama/Meta-Llama-3.1-8B-Instruct", w).
Proof. do 2 eexists. repeat split. Qed.

(** ** The decision of [select] *)

(** Whatever the server answers, a run of [select] that returns has taken
    its decision from [choices]. *)
Lemma select_returns_choice self s choices temperature w :
  match (select self s choices temperature w).1 with
  | Ok out => exists idx, (idx < length choices)%nat /\ choices !! idx = Some out.1.1.1
  | Raise _ => True
  end.
Proof.
  unfold select.
  repeat (exec_step; simpl; try exact I).
  all: match goal with
  | H : list_getitem _ ?i = Ok ?d |- _ =>
      apply list_getitem_ok in H; exists i; split; [eapply lookup_lt_Some, H | exact H]
  end.
Qed.

(** C10. When [select] returns, the list of choices is not empty and the
    decision is its element at an index within range; on an empty list of
    choices [select] raises. *)
Theorem select_decision_in_choices
        (self : RuntimeEndpoint) (s : StreamExecutor) (choices : list string)
        (temperature : spec_float) (w : world) :
  (forall out w', select self s choices temperature w = (Ok out, w') ->
     choices <> []
     /\ exists idx, (idx < length choices)%nat /\ choices !! idx = Some out.1.1.1)
  /\ (choices = [] -> exists e w', select self s choices temperature w = (Raise e, w')).
Proof.
  pose proof (select_returns_choice self s choices temperature w) as H.
  split.
  - intros out w' E. rewrite E in H. simpl in H. destruct H as (idx & Hlt & Hidx).
    split; [|eauto]. intros ->. simpl in Hlt. lia.
  - intros ->. destruct (select self s [] temperature w) as [[out|e] w']; [|eauto].
    simpl in H. destruct H as (idx & Hlt & _). simpl in Hlt. lia.
Qed.

Lemma select_decision_in_choices_witness :
  (exists idx, (idx < length sample_choices)%nat /\ sample_choices !! idx = Some "Paris")
  /\ exists e w', select sample_self sample_state [] float_zero sample_world = (Raise e, w').
Proof.
  split.
  - destruct (select_decision_in_choices sample_self sample_state sample_choices
                float_zero sample_world) as [H _].
    refine (proj2 (H (_, _, _, _) _ _)). vm_compute. reflexivity.
  - destruct (select_decision_in_choices sample_self sample_state []
                float_zero sample_world) as [_ H].
    apply (H eq_refl).
Defined.

(** C2, as the code has it.  When both calls of [select] succeed and the
    scoring call returns one score per choice, [select] returns the choice
    at the index [numpy.argmax] gives, and the scores with it.  When no
    score is a NaN that index is the first one of the maximal score: every
    score is at most that one and every score before it is strictly
    smaller.  When some score is a NaN it is the index of the first NaN,
    whatever the other scores are. *)
Theorem select_returns_first_max
        (self : RuntimeEndpoint) (s : StreamExecutor) (choices : list string)
        (temperature : spec_float) (w : world)
        (res1 res2 : HttpResponse) (rest : list reply)
        (txt : string) (info : meta_info) (items : list (string * meta_info)) :
  SFleb temperature float_1e_5 = true ->
  (length (images_ s) <= 1)%nat ->
  inbox w = Reply res1 :: Reply res2 :: rest ->
  status_code res1 = 200 -> body res1 = Some (DocGeneration txt info) ->
  status_code res2 = 200 -> body res2 = Some (DocBatch items) ->
  choices <> [] ->
  length items = length choices ->
  exists idx decision w',
    select self s choices temperature w =
      (Ok (decision,
           (fun r => normalized_prompt_logprob r.2) <$> items,
           (fun r => input_token_logprobs r.2) <$> items,
           (fun r => output_token_logprobs r.2) <$> items), w')
    /\ choices !! idx = Some decision
    /\ (no_nan ((fun r => normalized_prompt_logprob r.2) <$> items) ->
          is_first_max ((fun r => normalized_prompt_logprob r.2) <$> items) idx)
    /\ (forall j, is_first_nan ((fun r => normalized_prompt_logprob r.2) <$> items) j ->
          idx = j).
Proof.
  intros Ht Himg Hin Hst1 Hb1 Hst2 Hb2 Hne Hlen.
  set (scores := (fun r => normalized_prompt_logprob r.2) <$> items) in *.
  destruct (np_argmax_spec scores) as (idx & Hidx & Hmax & Hfirst).
  { subst scores. destruct items; [|discriminate].
    destruct choices; [congruence | discriminate]. }
  assert (Hrange : (idx < length choices)%nat).
  { apply np_argmax_in_range in Hidx. subst scores.
    rewrite length_fmap in Hidx. lia. }
  destruct (lookup_lt_is_Some_2 choices idx Hrange) as [decision Hdec].
  exists idx, decision. eexists. split; [|split; [|split]]; try assumption.
  rewrite (select_after_priming self s choices temperature w res1 (Reply res2 :: rest)
             txt info) by assumption.
  erewrite bind_ok by (apply self_request_reply; reflexivity). cbv beta.
  erewrite bind_ok by (apply _assert_success_200; exact Hst2). cbv beta.
  erewrite bind_ok by (unfold json; rewrite Hb2; reflexivity). cbv beta.
  erewrite bind_ok by reflexivity. cbv beta zeta. fold scores.
  erewrite bind_ok by (unfold lift; rewrite Hidx; reflexivity). cbv beta.
  erewrite bind_ok by (unfold lift, list_getitem; rewrite Hdec; reflexivity).
  reflexivity.
Qed.

Lemma select_returns_first_max_witness :
  (exists w',
     select sample_self sample_state sample_choices float_zero sample_world =
       (Ok ("Paris", [float_minus_quarter; float_minus_1_5; float_minus_quarter],
            [[]; []; []], [[]; []; []]), w'))
  /\ is_first_max [float_minus_quarter; float_minus_1_5; float_minus_quarter] 0.
Proof.
  assert (Hnan : no_nan [float_minus_quarter; float_minus_1_5; float_minus_quarter])
    by (repeat constructor; discriminate).
  destruct (select_returns_first_max sample_self sample_state sample_choices float_zero
              sample_world _ _ _ _ _ _ eq_refl (le_S _ _ (le_n 0%nat)) eq_refl
              eq_refl eq_refl eq_refl eq_refl ltac:(discriminate) eq_refl)
    as (idx & decision & w' & Hrun & _ & Hmax & _).
  assert (Hidx : idx = 0%nat).
  { destruct (Hmax Hnan) as (best & Hbest & _ & Hbefore).
    destruct idx as [|[|[|idx]]]; [reflexivity | | | discriminate].
    - injection Hbest as <-.
      specialize (Hbefore 0%nat float_minus_quarter ltac:(lia) eq_refl). discriminate.
    - injection Hbest as <-.
      specialize (Hbefore 0%nat float_minus_quarter ltac:(lia) eq_refl). discriminate. }
  split.
  - exists w'. rewrite Hrun. vm_compute in Hrun. injection Hrun as <- _. reflexivity.
  - rewrite <- Hidx. exact (Hmax Hnan).
Defined.

(** With the scores -0.25, NaN and 1.0 [select] returns "London", the
    choice of the NaN, although the score of "Rome" is above the score of
    "Paris": the decision is not the choice of the maximal score. *)
Lemma select_nan_counterexample :
  (exists w',
     select sample_self sample_state sample_choices float_zero nan_world =
       (Ok ("London", [float_minus_quarter; S754_nan; float_one],
            [[]; []; []], [[]; []; []]), w'))
  /\ sample_choices !! 1%nat = Some "London"
  /\ SFltb float_minus_quarter float_one = true
  /\ ~ is_first_max [float_minus_quarter; S754_nan; float_one] 1.
Proof.
  split; [|split; [|split]].
  - eexists. vm_compute. reflexivity.
  - reflexivity.
  - reflexivity.
  - intros (best & Hbest & Hall & _). injection Hbest as <-.
    specialize (Hall 0%nat float_minus_quarter eq_refl). discriminate.
Qed.

(** ** [generate_stream] *)

Lemma str_app_cons x a b : String x a +:+ b = String x (a +:+ b).
Proof. reflexivity. Qed.

Lemma str_app_nil b : "" +:+ b = b.
Proof. reflexivity. Qed.

Lemma str_length_app a b :
  String.length (a +:+ b) = (String.length a + String.length b)%nat.
Proof.
  induction a as [|x a IH]; [reflexivity|].
  rewrite str_app_cons. simpl. now rewrite IH.
Qed.

Lemma str_app_assoc a b c : (a +:+ b) +:+ c = a +:+ (b +:+ c).
Proof.
  induction a as [|x a IH]; [reflexivity|].
  rewrite !str_app_cons. now rewrite IH.
Qed.

Lemma str_app_empty_r a : a +:+ "" = a.
Proof.
  induction a as [|x a IH]; [reflexivity|].
  rewrite str_app_cons. now rewrite IH.
Qed.

Lemma str_drop_app a b : str_drop (String.length a) (a +:+ b) = b.
Proof.
  induction a as [|x a IH]; [now destruct b|].
  rewrite str_app_cons. simpl. exact IH.
Qed.

Section StreamFacts.
Variable json_loads : string -> option json_doc.

(** The cursor is the starting cursor plus the length of what was
    emitted. *)
Lemma stream_loop_cursor chunks : forall pos,
  cursor (stream_loop json_loads pos chunks) =
    (pos + String.length (emitted (yields (stream_loop json_loads pos chunks))))%nat.
Proof.
  induction chunks as [|chunk rest IH]; intros pos; simpl; [lia|].
  destruct (str_truthy chunk && startswith chunk "data:"); [|apply IH].
  destruct (String.eqb chunk "data: [DONE]"); simpl; [lia|].
  destruct (json_loads _) as [[p|text meta|items|raw]|]; simpl; try lia.
  rewrite IH, str_length_app. lia.
Qed.

(** The cursor never moves back when one more line is processed. *)
Lemma stream_loop_cursor_mono chunks : forall pos k,
  (cursor (stream_loop json_loads pos (take k chunks)) <=
     cursor (stream_loop json_loads pos (take (S k) chunks)))%nat.
Proof.
  induction chunks as [|chunk rest IH]; intros pos k.
  - now rewrite !take_nil.
  - destruct k as [|k].
    + rewrite take_0. change (cursor (stream_loop json_loads pos [])) with pos.
      rewrite stream_loop_cursor. lia.
    + change (take (S (S k)) (chunk :: rest)) with (chunk :: take (S k) rest).
      change (take (S k) (chunk :: rest)) with (chunk :: take k rest).
      simpl.
      destruct (str_truthy chunk && startswith chunk "data:"); [|apply IH].
      destruct (String.eqb chunk "data: [DONE]"); simpl; [lia|].
      destruct (json_loads _) as [[p|text meta|items|raw]|]; simpl; try lia.
      apply IH.
Qed.

(** Over frames whose snapshots are cumulative, the deltas rebuild the
    last snapshot. *)
Lemma stream_loop_cumulative chunks snaps :
  frames_of json_loads chunks snaps -> forall prev,
  cumulative prev (snaps.*1) ->
  let r := stream_loop json_loads (String.length prev) chunks in
  prev +:+ emitted (yields r) = last_snapshot prev (snaps.*1)
  /\ cursor r = String.length (last_snapshot prev (snaps.*1))
  /\ (yields r).*2 = snaps.*2
  /\ (ending r = Exhausted \/ ending r = Done).
Proof.
  induction 1 as [|chunk rest snaps Hskip _ IH
                  |chunk rest text meta snaps (Ht & Hp & Hd & Hj) _ IH
                  |rest]; intros prev Hcum.
  - simpl. rewrite str_app_empty_r. auto.
  - simpl. rewrite Hskip. now apply IH.
  - simpl in *. destruct Hcum as [[delta ->] Hcum].
    rewrite Ht, Hp, Hd, Hj. simpl.
    rewrite str_drop_app, <- str_length_app.
    destruct (IH (prev +:+ delta) Hcum) as (He & Hc & Hm & Hend).
    split; [|split; [|split]]; try assumption.
    + unfold emitted in *. simpl. now rewrite <- str_app_assoc.
    + now f_equal.
  - simpl. rewrite str_app_empty_r. auto.
Qed.

Lemma frames_of_take chunks snaps :
  frames_of json_loads chunks snaps ->
  forall k, exists j, frames_of json_loads (take k chunks) (take j snaps).
Proof.
  induction 1 as [|chunk rest snaps Hskip _ IH
                  |chunk rest text meta snaps Hframe _ IH
                  |rest]; intros [|k]; try (exists 0%nat; apply frames_end).
  - destruct (IH k) as [j Hj]. exists j. now apply frames_skip.
  - destruct (IH k) as [j Hj]. exists (S j). now apply frames_data.
  - exists 0%nat. apply frames_done.
Qed.

Lemma cumulative_take prev texts j : cumulative prev texts -> cumulative prev (take j texts).
Proof.
  revert prev j. induction texts as [|t rest IH]; intros prev j H.
  - now rewrite take_nil.
  - destruct j as [|j]; simpl; [exact I|]. destruct H as [Hd H]. auto.
Qed.
End StreamFacts.

(** C1. On a streamed response whose data frames carry cumulative
    snapshots, [generate_stream] yields one delta per frame, with the
    metadata of the frame; the deltas concatenate to the last snapshot, the
    cursor ends at its length, and the stream ends without an exception.
    After any number [k] of lines the cursor is the length of the text
    emitted so far, that text is one of the snapshots (or empty), and the
    cursor is not above the one after the next line. *)
Theorem generate_stream_deltas
        (json_loads : string -> option json_doc)
        (cfg : GlobalConfig) (self : RuntimeEndpoint) (s : StreamExecutor)
        (sp : SglSamplingParams) (w : world)
        (res : HttpResponse) (rest : list reply) (snaps : list (string * meta_info)) :
  dtype_ok sp = true ->
  (length (images_ s) <= 1)%nat ->
  inbox w = Reply res :: rest ->
  status_code res = 200 ->
  frames_of json_loads (lines res) snaps ->
  cumulative "" (snaps.*1) ->
  exists run w',
    generate_stream json_loads cfg self s sp w = (Ok run, w')
    /\ length (yields run) = length snaps
    /\ (yields run).*2 = snaps.*2
    /\ emitted (yields run) = last_snapshot "" (snaps.*1)
    /\ cursor run = String.length (last_snapshot "" (snaps.*1))
    /\ (ending run = Exhausted \/ ending run = Done)
    /\ forall k,
         let part := stream_loop json_loads 0 (take k (lines res)) in
         cursor part = String.length (emitted (yields part))
         /\ (exists j, emitted (yields part) = last_snapshot "" (take j (snaps.*1)))
         /\ (cursor part <=
               cursor (stream_loop json_loads 0 (take (S k) (lines res))))%nat.
Proof.
  intros Hd Himg Hin Hst Hframes Hcum.
  do 2 eexists. split.
  { unfold generate_stream.
    erewrite bind_ok by (apply request_data_ok; exact Hd). cbv beta.
    erewrite bind_ok by (apply _add_images_one_or_none; exact Himg). cbv beta.
    erewrite bind_ok by (apply self_request_reply; exact Hin). cbv beta.
    erewrite bind_ok by (apply _assert_success_200; exact Hst).
    reflexivity. }
  destruct (stream_loop_cumulative json_loads (lines res) snaps Hframes "" Hcum)
    as (He & Hc & Hm & Hend).
  change (String.length "") with 0%nat in *. rewrite str_app_nil in He.
  split; [|split; [|split; [|split; [|split]]]]; try assumption.
  - rewrite <- (length_fmap snd (yields _)), Hm. apply length_fmap.
  - intros k part. split; [|split].
    + subst part. now rewrite stream_loop_cursor.
    + destruct (frames_of_take json_loads _ _ Hframes k) as [j Hj].
      exists j.
      destruct (stream_loop_cumulative json_loads _ _ Hj "") as (He' & _).
      * rewrite fmap_take. now apply cumulative_take.
      * rewrite fmap_take, str_app_nil in He'. exact He'.
    + apply stream_loop_cursor_mono.
Qed.

Lemma generate_stream_deltas_witness :
  exists run w',
    generate_stream toy_loads sample_config sample_self sample_state sample_params
                    streaming_world = (Ok run, w')
    /\ (yields run).*1 = ["He"; "llo"]
    /\ emitted (yields run) = "Hello"
    /\ cursor run = 5%nat
    /\ ending run = Done.
Proof.
  assert (Hframes : frames_of toy_loads
                      ["data: He"; ""; "data: Hello"; ""; "data: [DONE]"]
                      [("He", sample_meta 3 float_zero);
                       ("Hello", sample_meta 3 float_zero)]).
  { apply frames_data; [repeat split|].
    apply frames_skip; [reflexivity|].
    apply frames_data; [repeat split|].
    apply frames_skip; [reflexivity|].
    apply frames_done. }
  assert (Hcum : cumulative "" ["He"; "Hello"]).
  { split; [now exists "He"|]. split; [now exists "llo"|]. exact I. }
  destruct (generate_stream_deltas toy_loads sample_config sample_self sample_state
              sample_params streaming_world _ _ _ eq_refl (le_S _ _ (le_n 0%nat))
              eq_refl eq_refl Hframes Hcum)
    as (run & w' & Hrun & _ & _ & Hem & Hcur & _).
  exists run, w'. split; [exact Hrun|].
  vm_compute in Hrun. injection Hrun as <- _.
  repeat split.
Defined.

(** * Further properties *)

Set Warnings "-clear-no-such-hyp".

(** ** The constructor and the accessors *)

Lemma __init___sent get_template super_attrs url key ver w :
  sent (__init__ get_template super_attrs url key ver w).2 =
    sent w ++ [model_info_request url key ver].
Proof.
  unfold __init__. fold (model_info_request url key ver).
  assert (Hreq : forall r w1, http_request (model_info_request url key ver) w = (r, w1) ->
                   sent w1 = sent w ++ [model_info_request url key ver]).
  { intros r w1 E. unfold http_request in E.
    destruct (inbox w) as [|[|res] rest]; injection E as _ <-; reflexivity. }
  exec_bind res w1 E; pose proof (Hreq _ _ E) as Hw1; clear E Hreq; [|exact Hw1].
  repeat (exec_step; simpl; try exact Hw1).
Qed.

(** The session built when the server answers the metadata fetch. *)
Lemma __init___ok get_template super_attrs url key ver w res rest p :
  inbox w = Reply res :: rest ->
  status_code res = 200 ->
  body res = Some (DocModelInfo p) ->
  __init__ get_template super_attrs url key ver w =
    (Ok {| support_concate_and_append := true;
           base_url := url;
           api_key := key;
           verify := ver;
           model_info := DocModelInfo p;
           chat_template := get_template p;
           base_attrs := foldr delete super_attrs assigned_attrs |},
     {| sent := sent w ++ [model_info_request url key ver]; inbox := rest |}).
Proof.
  intros Hin Hst Hbody. unfold __init__.
  erewrite bind_ok by (unfold http_request; rewrite Hin; reflexivity).
  erewrite bind_ok by (apply _assert_success_200; exact Hst).
  erewrite bind_ok by (unfold json; rewrite Hbody; reflexivity).
  erewrite bind_ok by reflexivity.
  reflexivity.
Qed.

(** X1. The constructor issues exactly one request, the metadata fetch
    with the credential and the verification mode.  When the server answers
    it with status 200 and a model path, the session keeps the three
    arguments, [get_model_name] returns the model path the server gave and
    [get_chat_template] the template of that path, both without a
    request. *)
Theorem constructor_round_trip
        (get_template : string -> ChatTemplate) (super_attrs : gmap string pyval)
        (url : string) (key ver : option string) (w : world) (p : string) :
  answers_model_info w p ->
  exists self w1,
    __init__ get_template super_attrs url key ver w = (Ok self, w1)
    /\ sent w1 = sent w ++ [model_info_request url key ver]
    /\ base_url self = url /\ api_key self = key /\ verify self = ver
    /\ support_concate_and_append self = true
    /\ forall w', get_model_name self w' = (Ok p, w')
                  /\ get_chat_template self w' = (Ok (get_template p), w').
Proof.
  intros (res & rest & Hin & Hst & Hbody).
  do 2 eexists. split; [eapply __init___ok; eassumption|].
  repeat split.
Qed.

Lemma constructor_round_trip_witness :
  exists self w1,
    __init__ sample_template base_backend_attrs "http://localhost:30000"
             (Some "sk-123456") None model_info_world = (Ok self, w1)
    /\ get_model_name self w1 = (Ok "meta-llama/Meta-Llama-3.1-8B-Instruct", w1).
Proof.
  destruct (constructor_round_trip sample_template base_backend_attrs
              "http://localhost:30000" (Some "sk-123456") None model_info_world
              "meta-llama/Meta-Llama-3.1-8B-Instruct")
    as (self & w1 & Hrun & _ & _ & _ & _ & _ & Hget).
  - do 2 eexists. repeat split.
  - exists self, w1. split; [exact Hrun | apply Hget].
Defined.

(** X2. A session is constructed exactly when the server answers the
    metadata fetch with status 200 and a document holding the model path;
    in every other case the constructor raises, after the same single
    request. *)
Theorem constructor_succeeds_iff
        (get_template : string -> ChatTemplate) (super_attrs : gmap string pyval)
        (url : string) (key ver : option string) (w : world) :
  ((exists self w1, __init__ get_template super_attrs url key ver w = (Ok self, w1))
   <-> exists p, answers_model_info w p)
  /\ sent (__init__ get_template super_attrs url key ver w).2 =
       sent w ++ [model_info_request url key ver].
Proof.
  split; [|apply __init___sent].
  split.
  - intros (self & w1 & E). unfold __init__ in E.
    unfold bind at 1 in E. unfold http_request in E.
    destruct (inbox w) as [|[|res] rest] eqn:Hin; try discriminate.
    unfold bind at 1 in E.
    destruct (_assert_success res _) as [[[]|e] w2] eqn:Ha; [|discriminate].
    unfold bind at 1 in E. unfold json in E.
    destruct (body res) as [d|] eqn:Hb; [|discriminate]. simpl in E.
    unfold bind at 1 in E. destruct d as [p| | |]; try discriminate.
    exists p, res, rest. repeat split; try assumption.
    unfold _assert_success in Ha. destruct (status_code res =? 200) eqn:Hs.
    + now apply Z.eqb_eq.
    + simpl in Ha. unfold bind, json in Ha. rewrite Hb in Ha. discriminate.
  - intros (p & Hp).
    destruct Hp as (res & rest & Hin & Hst & Hbody).
    do 2 eexists. eapply __init___ok; eassumption.
Qed.

Lemma constructor_succeeds_iff_witness :
  ~ exists self w1,
      __init__ sample_template base_backend_attrs "http://localhost:30000" None None
               rejecting_world = (Ok self, w1).
Proof.
  intros H.
  apply (proj1 (constructor_succeeds_iff sample_template base_backend_attrs
                  "http://localhost:30000" None None rejecting_world)) in H.
  destruct H as (p & res & rest & Hin & Hst & _).
  injection Hin as <- _. discriminate.
Defined.

(** ** Calls that only check the status *)

Lemma request_status_outcome self path data w :
  let run := bind (self_request self path (Some data) false)
                  (fun res => _assert_success res) w in
  sent run.2 = sent w ++ [request_of self path data false]
  /\ status_outcome w run.1.
Proof.
  unfold status_outcome, bind, self_request, http_request, _assert_success.
  fold (request_of self path data false).
  destruct (inbox w) as [|[|res] rest]; simpl; try (split; reflexivity).
  destruct (status_code res =? 200); simpl; [split; reflexivity|].
  unfold bind, json. destruct (body res); split; reflexivity.
Qed.

(** X3. [cache_prefix], [commit_lazy_operations] and [fill_image] each
    issue one request to [/generate] asking for zero new tokens, with the
    image of the program state when it has one, and end by the status of
    the reply alone.  [commit_lazy_operations] and [fill_image] on a state
    with several images raise with nothing sent. *)
Theorem priming_calls (self : RuntimeEndpoint) (s : StreamExecutor)
        (prefix_str : string) (w : world) :
  (sent (cache_prefix self prefix_str w).2 =
     sent w ++ [request_of self "/generate"
                  (<["sampling_params" := VDict {[ "max_new_tokens" := VInt 0 ]}]>
                     {[ "text" := VStr prefix_str ]}) false]
   /\ status_outcome w (cache_prefix self prefix_str w).1)
  /\ ((length (images_ s) <= 1)%nat ->
        sent (commit_lazy_operations self s w).2 =
          sent w ++ [request_of self "/generate" (with_image s (priming_data s)) false]
        /\ status_outcome w (commit_lazy_operations self s w).1
        /\ fill_image self s w = commit_lazy_operations self s w)
  /\ ((1 < length (images_ s))%nat ->
        commit_lazy_operations self s w =
          (Raise (AssertionError (Some "Only support one image.")), w)
        /\ fill_image self s w =
             (Raise (AssertionError (Some "Only support one image.")), w)).
Proof.
  split; [|split].
  - apply (request_status_outcome self "/generate").
  - intros Himg. unfold commit_lazy_operations, fill_image.
    fold (priming_data s).
    erewrite bind_ok by (apply _add_images_one_or_none; exact Himg).
    pose proof (request_status_outcome self "/generate"
                  (with_image s (priming_data s)) w) as [H1 H2].
    auto.
  - intros Himg. unfold commit_lazy_operations, fill_image.
    erewrite !bind_raise by (apply _add_images_many; exact Himg). auto.
Qed.

Lemma priming_calls_witness :
  (commit_lazy_operations sample_self sample_state rejecting_world).1 =
    Raise (RuntimeError (ArgDoc (DocOther "unknown request id")))
  /\ commit_lazy_operations sample_self sample_state_2 rejecting_world =
       (Raise (AssertionError (Some "Only support one image.")), rejecting_world).
Proof.
  destruct (priming_calls sample_self sample_state "" rejecting_world) as (_ & H & _).
  destruct (H (le_S _ _ (le_n 0%nat))) as (_ & Hout & _).
  destruct (priming_calls sample_self sample_state_2 "" rejecting_world) as (_ & _ & H').
  destruct H' as [H' _]; [simpl; lia|].
  split; [exact Hout | exact H'].
Defined.

(** ** What [generate] returns *)



(** ** The payload of [generate] and [generate_stream] *)

Ltac payload_lookup :=
  unfold base_payload, set_items, logprob_items; simpl;
  repeat match goal with
         | |- context [match ?o with Some _ => _ | None => _ end] => destruct o; simpl
         end;
  repeat first [ rewrite lookup_insert_eq
               | rewrite lookup_insert_ne by discriminate
               | rewrite lookup_singleton_eq
               | rewrite lookup_singleton_ne by discriminate ];
  try reflexivity.

Lemma base_payload_text cfg s sp :
  base_payload cfg s sp !! "text" = Some (VStr (text_ s)).
Proof. payload_lookup. Qed.

Lemma base_payload_sampling cfg s sp :
  base_payload cfg s sp !! "sampling_params" =
    Some (VDict (sampling_dict cfg sp
                   match dtype sp with DtypeNone => false | _ => true end)).
Proof. payload_lookup. Qed.

Lemma base_payload_logprob cfg s sp :
  base_payload cfg s sp !! "return_logprob" = VBool <$> return_logprob sp
  /\ base_payload cfg s sp !! "logprob_start_len" = VInt <$> logprob_start_len sp
  /\ base_payload cfg s sp !! "top_logprobs_num" = VInt <$> top_logprobs_num sp
  /\ base_payload cfg s sp !! "return_text_in_logprobs" =
       VBool <$> return_text_in_logprobs sp.
Proof.
  unfold base_payload, set_items, logprob_items.
  destruct (return_logprob sp), (logprob_start_len sp), (top_logprobs_num sp),
    (return_text_in_logprobs sp); simpl;
    repeat split;
    repeat first [ rewrite lookup_insert_eq
                 | rewrite lookup_insert_ne by discriminate
                 | rewrite lookup_singleton_eq
                 | rewrite lookup_singleton_ne by discriminate ];
    reflexivity.
Qed.

(** X5. In the request of [generate], [sampling_params] holds every entry
    of [to_srt_kwargs()] unchanged; the two output-formatting flags of the
    global configuration and the datatype discriminator are used only for
    the keys [to_srt_kwargs()] does not define, and no other key is
    added. *)
Theorem generate_sampling_params (cfg : GlobalConfig) (self : RuntimeEndpoint)
        (s : StreamExecutor) (sp : SglSamplingParams) (w : world) :
  dtype_ok sp = true ->
  (length (images_ s) <= 1)%nat ->
  exists data params,
    sent (generate cfg self s sp w).2 =
      sent w ++ [request_of self "/generate" data false]
    /\ data !! "text" = Some (VStr (text_ s))
    /\ data !! "sampling_params" = Some (VDict params)
    /\ (forall k v, to_srt_kwargs sp !! k = Some v -> params !! k = Some v)
    /\ (to_srt_kwargs sp !! "skip_special_tokens" = None ->
          params !! "skip_special_tokens" =
            Some (VBool (skip_special_tokens_in_output cfg)))
    /\ (to_srt_kwargs sp !! "spaces_between_special_tokens" = None ->
          params !! "spaces_between_special_tokens" =
            Some (VBool (spaces_between_special_tokens_in_out cfg)))
    /\ (to_srt_kwargs sp !! "dtype" = None ->
          params !! "dtype" =
            match dtype sp with DtypeNone => None | _ => Some (VStr "int") end)
    /\ (forall k, k <> "skip_special_tokens" ->
          k <> "spaces_between_special_tokens" -> k <> "dtype" ->
          params !! k = to_srt_kwargs sp !! k).
Proof.
  intros Hd Himg. do 2 eexists.
  split; [apply generate_sent; assumption|].
  split; [rewrite with_image_lookup_ne by discriminate; apply base_payload_text|].
  split; [rewrite with_image_lookup_ne by discriminate; apply base_payload_sampling|].
  unfold sampling_dict.
  split; [intros k v Hk; now apply lookup_union_Some_l|].
  split; [|split; [|split]].
  - intros Hk. rewrite lookup_union_r by exact Hk.
    destruct (dtype sp);
      repeat first [ rewrite lookup_insert_eq
                   | rewrite lookup_insert_ne by discriminate
                   | rewrite lookup_singleton_eq ]; reflexivity.
  - intros Hk. rewrite lookup_union_r by exact Hk.
    destruct (dtype sp);
      repeat first [ rewrite lookup_insert_eq
                   | rewrite lookup_insert_ne by discriminate ]; reflexivity.
  - intros Hk. rewrite lookup_union_r by exact Hk.
    destruct (dtype sp);
      repeat first [ rewrite lookup_insert_eq
                   | rewrite lookup_insert_ne by discriminate
                   | rewrite lookup_singleton_ne by discriminate ]; reflexivity.
  - intros k H1 H2 H3.
    destruct (to_srt_kwargs sp !! k) as [v|] eqn:Hk.
    + now apply lookup_union_Some_l.
    + rewrite lookup_union_r by exact Hk.
      destruct (dtype sp);
        repeat (rewrite lookup_insert_ne by congruence);
        now rewrite lookup_singleton_ne by congruence.
Qed.

Lemma generate_sampling_params_witness :
  exists data params,
    sent (generate sample_config sample_self sample_state int_params generation_world).2 =
      [request_of sample_self "/generate" data false]
    /\ data !! "sampling_params" = Some (VDict params)
    /\ params !! "skip_special_tokens" = Some (VBool false)
    /\ params !! "spaces_between_special_tokens" = Some (VBool true)
    /\ params !! "dtype" = Some (VStr "int").
Proof.
  destruct (generate_sampling_params sample_config sample_self sample_state int_params
              generation_world eq_refl (le_S _ _ (le_n 0%nat)))
    as (data & params & Hsent & _ & Hp & Hkw & _ & Hspaces & Hdt & _).
  exists data, params. split; [exact Hsent|]. split; [exact Hp|].
  split; [apply Hkw; reflexivity|]. split; [apply Hspaces; reflexivity|].
  apply Hdt. reflexivity.
Defined.

(** X6. In the request of [generate], each of the four logprob fields is
    present exactly when the sampling parameters set it, with the value
    set; an unset field is left out of the payload. *)
Theorem generate_logprob_fields (cfg : GlobalConfig) (self : RuntimeEndpoint)
        (s : StreamExecutor) (sp : SglSamplingParams) (w : world) :
  dtype_ok sp = true ->
  (length (images_ s) <= 1)%nat ->
  exists data,
    sent (generate cfg self s sp w).2 =
      sent w ++ [request_of self "/generate" data false]
    /\ data !! "return_logprob" = VBool <$> return_logprob sp
    /\ data !! "logprob_start_len" = VInt <$> logprob_start_len sp
    /\ data !! "top_logprobs_num" = VInt <$> top_logprobs_num sp
    /\ data !! "return_text_in_logprobs" = VBool <$> return_text_in_logprobs sp.
Proof.
  intros Hd Himg. eexists.
  split; [apply generate_sent; assumption|].
  rewrite !with_image_lookup_ne by discriminate.
  apply base_payload_logprob.
Qed.

Lemma generate_logprob_fields_witness :
  exists data,
    sent (generate sample_config sample_self sample_state int_params generation_world).2 =
      [request_of sample_self "/generate" data false]
    /\ data !! "return_logprob" = Some (VBool true)
    /\ data !! "logprob_start_len" = Some (VInt 3)
    /\ data !! "top_logprobs_num" = None
    /\ data !! "return_text_in_logprobs" = None.
Proof.
  exact (generate_logprob_fields sample_config sample_self sample_state int_params
           generation_world eq_refl (le_S _ _ (le_n 0%nat))).
Defined.

(** ** Rejected inputs and the request of [generate_stream] *)

Lemma request_data_invalid cfg s sp w :
  dtype_ok sp = false ->
  request_data cfg s sp w =
    (Raise (RuntimeError (ArgMsg ("Invalid dtype: " +:+ dtype_text sp))), w).
Proof.
  unfold dtype_ok, dtype_text, request_data, bind, ret, raise.
  destruct (dtype sp) as [| |d|r]; intros H; try discriminate.
  - now rewrite H.
  - reflexivity.
Qed.

(** X7. A datatype selector other than [None], [int] and ["int"] makes
    [generate] and [generate_stream] raise the runtime error naming the
    selector, whatever the program state holds, with nothing sent. *)
Theorem invalid_dtype_rejected (json_loads : string -> option json_doc)
        (cfg : GlobalConfig) (self : RuntimeEndpoint)
        (s : StreamExecutor) (sp : SglSamplingParams) (w : world) :
  dtype_ok sp = false ->
  generate cfg self s sp w =
    (Raise (RuntimeError (ArgMsg ("Invalid dtype: " +:+ dtype_text sp))), w)
  /\ generate_stream json_loads cfg self s sp w =
       (Raise (RuntimeError (ArgMsg ("Invalid dtype: " +:+ dtype_text sp))), w).
Proof.
  intros Hd. unfold generate, generate_stream.
  erewrite !bind_raise by (apply request_data_invalid; exact Hd). auto.
Qed.

Lemma invalid_dtype_rejected_witness :
  generate sample_config sample_self sample_state_2 float_params generation_world =
    (Raise (RuntimeError (ArgMsg "Invalid dtype: float")), generation_world).
Proof.
  apply (invalid_dtype_rejected toy_loads sample_config sample_self sample_state_2
           float_params generation_world eq_refl).
Defined.

(** X8. With an accepted datatype selector, [generate_stream] on a state
    with at most one image issues one streaming request to [/generate]
    whose payload is the one of [generate] with ["stream"] set to [True];
    a reply with another status than 200 raises before any line is read,
    the runtime error carrying its body when the body is a JSON document
    and the decoding error when it is not, and a reply with status 200 is
    read from cursor 0.  On a state with several images it raises with
    nothing sent. *)
Theorem generate_stream_request (json_loads : string -> option json_doc)
        (cfg : GlobalConfig) (self : RuntimeEndpoint)
        (s : StreamExecutor) (sp : SglSamplingParams) (w : world)
        (res : HttpResponse) (rest : list reply) :
  dtype_ok sp = true ->
  inbox w = Reply res :: rest ->
  ((length (images_ s) <= 1)%nat ->
     exists data,
       (generate_stream json_loads cfg self s sp w).2 =
         {| sent := sent w ++ [request_of self "/generate" data true]; inbox := rest |}
       /\ data !! "stream" = Some (VBool true)
       /\ (forall k, k <> "stream" ->
             data !! k = with_image s (base_payload cfg s sp) !! k)
       /\ (status_code res = 200 ->
             (generate_stream json_loads cfg self s sp w).1 =
               Ok (stream_loop json_loads 0 (lines res)))
       /\ (status_code res <> 200 ->
             (generate_stream json_loads cfg self s sp w).1 =
               match body res with
               | Some d => Raise (RuntimeError (ArgDoc d))
               | None => Raise JSONDecodeError
               end))
  /\ ((1 < length (images_ s))%nat ->
        generate_stream json_loads cfg self s sp w =
          (Raise (AssertionError (Some "Only support one image.")), w)).
Proof.
  intros Hd Hin. unfold generate_stream.
  erewrite bind_ok by (apply request_data_ok; exact Hd). cbv beta.
  split.
  - intros Himg.
    erewrite bind_ok by (apply _add_images_one_or_none; exact Himg). cbv beta.
    erewrite bind_ok by (apply self_request_reply; exact Hin). cbv beta.
    eexists. split; [|split; [|split; [|split]]].
    + unfold bind. rewrite (surjective_pairing (_assert_success res _)).
      rewrite _assert_success_world.
      destruct (_assert_success res _).1; reflexivity.
    + unfold with_image. destruct (images_ s) as [|img l].
      * apply lookup_insert_eq.
      * rewrite lookup_insert_ne by discriminate. apply lookup_insert_eq.
    + intros k Hk. unfold with_image. destruct (images_ s) as [|img l].
      * now rewrite lookup_insert_ne.
      * destruct (decide (k = "image_data")) as [->|Hne].
        -- now rewrite !lookup_insert_eq.
        -- rewrite !(lookup_insert_ne _ "image_data") by congruence.
           now rewrite lookup_insert_ne.
    + intros Hst. now erewrite bind_ok by (apply _assert_success_200; exact Hst).
    + intros Hst. unfold bind. rewrite _assert_success_not_200_any by exact Hst.
      now destruct (body res).
  - intros Himg. now erewrite bind_raise by (apply _add_images_many; exact Himg).
Qed.

Lemma generate_stream_request_witness :
  exists data,
    sent (generate_stream toy_loads sample_config sample_self sample_state sample_params
                          streaming_world).2 =
      [request_of sample_self "/generate" data true]
    /\ data !! "stream" = Some (VBool true)
    /\ data !! "text" = Some (VStr "The capital of France is ").
Proof.
  destruct (generate_stream_request toy_loads sample_config sample_self sample_state
              sample_params streaming_world _ _ eq_refl eq_refl) as [H _].
  destruct (H (le_S _ _ (le_n 0%nat))) as (data & Hw & Hs & Hk & _).
  exists data. split; [now rewrite Hw|]. split; [exact Hs|].
  rewrite Hk by discriminate. reflexivity.
Defined.

(** ** The loop of [generate_stream] on arbitrary lines *)

Section StreamLoop.
Variable json_loads : string -> option json_doc.

Lemma stream_loop_cons pos chunk rest :
  stream_loop json_loads pos (chunk :: rest) =
    if is_data_line chunk then
      if String.eqb chunk "data: [DONE]"
      then {| yields := []; cursor := pos; ending := Done |}
      else
        match json_loads (str_strip newline (str_drop 5 chunk)) with
        | None => {| yields := []; cursor := pos; ending := Aborted JSONDecodeError |}
        | Some (DocGeneration text meta) =>
            let r := stream_loop json_loads
                       (pos + String.length (str_drop pos text))%nat rest in
            {| yields := (str_drop pos text, meta) :: yields r;
               cursor := cursor r;
               ending := ending r |}
        | Some _ => {| yields := []; cursor := pos; ending := Aborted SubscriptError |}
        end
    else stream_loop json_loads pos rest.
Proof. reflexivity. Qed.

(** X9. Reading the lines [l1 ++ l2] is reading [l1] and then, when [l1]
    ran out without the terminal line or an exception, reading [l2] from
    the cursor [l1] left, the yields of the two parts in order; otherwise
    [l2] is not read at all. *)
Theorem stream_loop_app (l1 l2 : list string) : forall pos,
  stream_loop json_loads pos (l1 ++ l2) =
    let r1 := stream_loop json_loads pos l1 in
    match ending r1 with
    | Exhausted =>
        let r2 := stream_loop json_loads (cursor r1) l2 in
        {| yields := yields r1 ++ yields r2; cursor := cursor r2; ending := ending r2 |}
    | _ => r1
    end.
Proof.
  induction l1 as [|chunk rest IH]; intros pos; simpl.
  - now destruct (stream_loop json_loads pos l2).
  - destruct (str_truthy chunk && startswith chunk "data:"); [|apply IH].
    destruct (String.eqb chunk "data: [DONE]"); [reflexivity|].
    destruct (json_loads _) as [[p|text meta|items|raw]|]; try reflexivity.
    rewrite IH. simpl.
    destruct (stream_loop json_loads _ rest) as [ys c e]. simpl.
    destruct e; reflexivity.
Qed.

(** X10. Nothing after the terminal line is read: two streams that agree
    up to and including the line [data: [DONE]] run the same, and such a
    run never ends by running out of lines. *)
Theorem stream_loop_done (pre post post' : list string) : forall pos,
  stream_loop json_loads pos (pre ++ "data: [DONE]" :: post) =
    stream_loop json_loads pos (pre ++ "data: [DONE]" :: post')
  /\ ending (stream_loop json_loads pos (pre ++ "data: [DONE]" :: post)) <> Exhausted.
Proof.
  induction pre as [|chunk rest IH]; intros pos; simpl.
  - split; [reflexivity | discriminate].
  - destruct (str_truthy chunk && startswith chunk "data:"); [|apply IH].
    destruct (String.eqb chunk "data: [DONE]"); [split; [reflexivity | discriminate]|].
    destruct (json_loads _) as [[p|text meta|items|raw]|];
      try (split; [reflexivity | discriminate]).
    destruct (IH (pos + String.length (str_drop pos text))%nat) as [-> Hend].
    split; [reflexivity | exact Hend].
Qed.

(** X11. Lines that are empty or do not start with [data:] are ignored:
    removing them from the stream changes nothing of the run. *)
Theorem stream_loop_ignores (chunks : list string) : forall pos,
  stream_loop json_loads pos (List.filter is_data_line chunks) =
    stream_loop json_loads pos chunks.
Proof.
  induction chunks as [|chunk rest IH]; intros pos; simpl; [reflexivity|].
  unfold is_data_line at 1.
  destruct (str_truthy chunk && startswith chunk "data:") eqn:Hd; [|apply IH].
  simpl. rewrite Hd.
  destruct (String.eqb chunk "data: [DONE]"); [reflexivity|].
  destruct (json_loads _) as [[p|text meta|items|raw]|]; try reflexivity.
  now rewrite IH.
Qed.

(** X12. A data line whose payload does not decode ends the stream by the
    decoding error: what the lines before it yielded stays yielded, the
    cursor stays where they left it, and no later line is read. *)
Theorem stream_loop_malformed (pre post : list string) (bad : string) : forall pos,
  is_data_line bad = true ->
  String.eqb bad "data: [DONE]" = false ->
  json_loads (str_strip newline (str_drop 5 bad)) = None ->
  ending (stream_loop json_loads pos pre) = Exhausted ->
  stream_loop json_loads pos (pre ++ bad :: post) =
    {| yields := yields (stream_loop json_loads pos pre);
       cursor := cursor (stream_loop json_loads pos pre);
       ending := Aborted JSONDecodeError |}.
Proof.
  intros pos Hd Hn Hj.
  assert (Hbad : forall q, stream_loop json_loads q (bad :: post) =
                   {| yields := []; cursor := q; ending := Aborted JSONDecodeError |}).
  { intros q. now rewrite stream_loop_cons, Hd, Hn, Hj. }
  clear Hd Hn Hj. revert pos.
  induction pre as [|chunk rest IH]; intros pos Hend.
  - apply Hbad.
  - change ((chunk :: rest) ++ bad :: post) with (chunk :: (rest ++ bad :: post)).
    simpl in Hend |- *.
    destruct (str_truthy chunk && startswith chunk "data:"); [|now apply IH].
    destruct (String.eqb chunk "data: [DONE]"); [discriminate|].
    destruct (json_loads _) as [[p|text meta|items|raw]|]; try discriminate.
    simpl in Hend. now rewrite (IH _ Hend).
Qed.

Lemma str_drop_short pos text :
  (String.length text <= pos)%nat -> str_drop pos text = "".
Proof.
  revert text. induction pos as [|pos IH]; intros [|c text]; simpl; intros H;
    try reflexivity; try lia.
  apply IH. lia.
Qed.

Lemma str_drop_length pos text :
  String.length (str_drop pos text) = (String.length text - pos)%nat.
Proof.
  revert text. induction pos as [|pos IH]; intros [|c text]; simpl;
    try reflexivity; try lia. apply IH.
Qed.

(** X13. A data frame moves the cursor to the length of its snapshot when
    that is beyond the cursor and leaves it in place otherwise; a snapshot
    no longer than the cursor yields the empty delta, so the cursor never
    moves back. *)
Theorem stream_loop_frame (chunk text : string) (meta : meta_info) (pos : nat) :
  is_data_frame json_loads chunk text meta ->
  stream_loop json_loads pos [chunk] =
    {| yields := [(str_drop pos text, meta)];
       cursor := Nat.max pos (String.length text);
       ending := Exhausted |}
  /\ ((String.length text <= pos)%nat -> str_drop pos text = "").
Proof.
  intros (Ht & Hp & Hd & Hj). split; [|apply str_drop_short].
  rewrite stream_loop_cons. unfold is_data_line. rewrite Ht, Hp, Hd, Hj. simpl.
  rewrite str_drop_length. f_equal. lia.
Qed.
End StreamLoop.

Lemma stream_loop_malformed_witness :
  stream_loop no_loads 0 [""; "data: {"; "data: He"] =
    {| yields := []; cursor := 0; ending := Aborted JSONDecodeError |}.
Proof.
  apply (stream_loop_malformed no_loads [""] ["data: He"] "data: {" 0%nat);
    reflexivity.
Defined.

Lemma stream_loop_frame_witness :
  stream_loop toy_loads 7 ["data: Hello"] =
    {| yields := [("", sample_meta 3 float_zero)]; cursor := 7; ending := Exhausted |}.
Proof.
  destruct (stream_loop_frame toy_loads "data: Hello" "Hello" (sample_meta 3 float_zero)
              7%nat) as [H _]; [repeat split | exact H].
Defined.

(** ** The requests of [select] *)

(** X14. Whatever the choices, the temperature and the answers of the
    server, a call of [select] issues at most two requests, both to
    [/generate] and none of them streaming: the number of requests does not
    grow with the number of choices. *)
Theorem select_at_most_two_requests
        (self : RuntimeEndpoint) (s : StreamExecutor) (choices : list string)
        (temperature : spec_float) (w : world) :
  exists later,
    sent (select self s choices temperature w).2 = sent w ++ later
    /\ (length later <= 2)%nat
    /\ Forall (fun rq => req_url rq = base_url self +:+ "/generate"
                         /\ req_stream rq = false) later.
Proof.
  unfold select.
  repeat (exec_step; simpl);
    rewrite <- ?app_assoc; simpl;
    first [ exists []; rewrite app_nil_r; split; [reflexivity|]
          | eexists; split; [reflexivity|] ];
    (split; [simpl; lia | repeat constructor]).
Qed.

(** X15. When the server answers the priming call with another status than
    200, [select] raises and the scoring request is never issued: the
    runtime error carrying the decoded body when the body of the reply is a
    JSON document, the decoding error when it is not. *)
Theorem select_priming_failure
        (self : RuntimeEndpoint) (s : StreamExecutor) (choices : list string)
        (temperature : spec_float) (w : world)
        (res : HttpResponse) (rest : list reply) :
  SFleb temperature float_1e_5 = true ->
  (length (images_ s) <= 1)%nat ->
  inbox w = Reply res :: rest ->
  status_code res <> 200 ->
  select self s choices temperature w =
    (match body res with
     | Some d => Raise (RuntimeError (ArgDoc d))
     | None => Raise JSONDecodeError
     end,
     {| sent := sent w ++ [request_of self "/generate" (with_image s (priming_data s)) false];
        inbox := rest |}).
Proof.
  intros Ht Himg Hin Hst. unfold select.
  erewrite bind_ok by (unfold assert_; rewrite Ht; reflexivity). cbv beta.
  erewrite bind_ok by (apply _add_images_one_or_none; exact Himg). cbv beta.
  erewrite bind_ok by (apply self_request_reply; exact Hin). cbv beta.
  unfold bind. rewrite _assert_success_not_200_any by exact Hst.
  now destruct (body res).
Qed.

Lemma select_priming_failure_witness :
  select sample_self sample_state sample_choices float_zero rejecting_world =
    (Raise (RuntimeError (ArgDoc (DocOther "unknown request id"))),
     {| sent := [request_of sample_self "/generate" (priming_data sample_state) false];
        inbox := [] |})
  /\ select sample_self sample_state sample_choices float_zero garbled_world =
       (Raise JSONDecodeError,
        {| sent := [request_of sample_self "/generate" (priming_data sample_state) false];
           inbox := [] |}).
Proof.
  split.
  - apply (select_priming_failure sample_self sample_state sample_choices float_zero
             rejecting_world _ _ eq_refl (le_S _ _ (le_n 0%nat)) eq_refl).
    discriminate.
  - apply (select_priming_failure sample_self sample_state sample_choices float_zero
             garbled_world _ _ eq_refl (le_S _ _ (le_n 0%nat)) eq_refl).
    discriminate.
Defined.

(** X16. On a program state with several images [select] raises before
    the priming call.  On a state with one image, both the priming request
    and the scoring request carry the data of the image under
    ["image_data"]. *)
Theorem select_image_rule
        (self : RuntimeEndpoint) (s : StreamExecutor) (choices : list string)
        (temperature : spec_float) (w : world)
        (res : HttpResponse) (rest : list reply) (txt : string) (info : meta_info) :
  SFleb temperature float_1e_5 = true ->
  ((1 < length (images_ s))%nat ->
     select self s choices temperature w =
       (Raise (AssertionError (Some "Only support one image.")), w))
  /\ (forall img, images_ s = [img] ->
        inbox w = Reply res :: rest ->
        status_code res = 200 ->
        body res = Some (DocGeneration txt info) ->
        exists d1 d2,
          sent (select self s choices temperature w).2 =
            sent w ++ [request_of self "/generate" d1 false;
                       request_of self "/generate" d2 false]
          /\ d1 !! "image_data" = Some (VStr img.2)
          /\ d2 !! "image_data" = Some (VStr img.2)).
Proof.
  intros Ht. split.
  - intros Himg. unfold select.
    erewrite bind_ok by (unfold assert_; rewrite Ht; reflexivity). cbv beta.
    now erewrite bind_raise by (apply _add_images_many; exact Himg).
  - intros img Himg Hin Hst Hbody.
    assert (Hone : (length (images_ s) <= 1)%nat) by (rewrite Himg; simpl; lia).
    exists (with_image s (priming_data s)),
           (with_image s (scoring_data s choices (prompt_tokens info))).
    split; [|unfold with_image; rewrite Himg; split; apply lookup_insert_eq].
    rewrite (select_after_priming self s choices temperature w res rest txt info)
      by assumption.
    set (w1 := {| sent := _; inbox := rest |}).
    exec_bind res' w2 E;
      (assert (Hw2 : sent w2 = sent w ++
                 [request_of self "/generate" (with_image s (priming_data s)) false;
                  request_of self "/generate"
                    (with_image s (scoring_data s choices (prompt_tokens info))) false])
        by (apply (f_equal snd) in E; simpl in E; subst w2;
            rewrite self_request_sent; subst w1; simpl;
            now rewrite <- app_assoc));
      clear E; [|exact Hw2].
    repeat (exec_step; simpl; try exact Hw2).
Qed.

Lemma select_image_rule_witness :
  select sample_self sample_state_2 sample_choices float_zero sample_world =
    (Raise (AssertionError (Some "Only support one image.")), sample_world)
  /\ exists d1 d2,
       sent (select sample_self sample_state_1 sample_choices float_zero sample_world).2 =
         [request_of sample_self "/generate" d1 false;
          request_of sample_self "/generate" d2 false]
       /\ d1 !! "image_data" = Some (VStr "aGVsbG8=")
       /\ d2 !! "image_data" = Some (VStr "aGVsbG8=").
Proof.
  split.
  - destruct (select_image_rule sample_self sample_state_2 sample_choices float_zero
                sample_world {| status_code := 200; body := None; lines := [] |} []
                "" (sample_meta 0 float_zero) eq_refl) as [H _].
    apply H. simpl. lia.
  - edestruct (select_image_rule sample_self sample_state_1 sample_choices float_zero
                 sample_world) as [_ H]; [reflexivity|].
    apply (H ("cat.png", "aGVsbG8=") eq_refl eq_refl eq_refl eq_refl).
Defined.

(** ** More on the runner *)

Section RunnerOutcomes.
Variable worker : string -> behaviour.

Lemma for_files_loop_end files :
  (for_files worker files).2 = LoopEnd <-> all_succeed worker files.
Proof.
  induction files as [|f rest IH]; simpl.
  - split; [constructor | reflexivity].
  - unfold run_one_file, exitcode.
    destruct (worker f) as [c| |] eqn:Hw; simpl.
    + destruct (bool_decide (Some c = Some 0)) eqn:Hc; simpl.
      * apply bool_decide_eq_true in Hc. injection Hc as ->.
        destruct (for_files worker rest) as [evs fl]. simpl in *.
        rewrite IH. split.
        -- intros H. now constructor.
        -- intros H. now inversion H.
      * apply bool_decide_eq_false in Hc.
        split; [discriminate|]. intros H. inversion H; subst. congruence.
    + split; [discriminate|]. intros H. inversion H; subst. congruence.
    + split; [discriminate|]. intros H. inversion H; subst. congruence.
Qed.

Lemma for_files_return files v :
  (for_files worker files).2 = Return v -> v = VBool false.
Proof.
  induction files as [|g rest IH]; simpl; [discriminate|].
  unfold run_one_file, exitcode.
  destruct (worker g) as [c| |]; simpl; try discriminate; try congruence.
  destruct (bool_decide (Some c = Some 0)); simpl; [|discriminate].
  now destruct (for_files worker rest).
Qed.

Lemma for_files_terminate files f :
  EvTerminate f ∈ (for_files worker files).1 ->
  worker f = Hangs /\ (for_files worker files).2 = Return (VBool false).
Proof.
  induction files as [|g rest IH]; simpl.
  - intros H. inversion H.
  - unfold run_one_file, exitcode.
    destruct (worker g) as [c| |] eqn:Hw; simpl.
    + destruct (bool_decide (Some c = Some 0)); simpl.
      * destruct (for_files worker rest) as [evs fl]. simpl in *.
        intros H. apply elem_of_cons in H as [H|H]; [discriminate | auto].
      * intros H. apply elem_of_cons in H as [H|H]; [discriminate | inversion H].
    + intros H. apply elem_of_cons in H as [H|H]; [discriminate|].
      apply elem_of_cons in H as [H|H]; [injection H as ->; auto|].
      apply elem_of_cons in H as [H|H]; [discriminate|].
      apply elem_of_cons in H as [H|H]; [discriminate | inversion H].
    + intros H. apply elem_of_cons in H as [H|H]; [discriminate | inversion H].
Qed.
End RunnerOutcomes.

(** X17. [run_unittest_files] returns the integer 0 exactly when the
    worker of every file ends within the timeout with exit status 0. *)
Theorem run_unittest_files_zero_iff (worker : string -> behaviour) (files : list string) :
  (run_unittest_files worker files).2 = Ok (VInt 0) <-> all_succeed worker files.
Proof.
  rewrite <- for_files_loop_end.
  pose proof (for_files_return worker files) as Hret.
  unfold run_unittest_files.
  destruct (for_files worker files) as [evs fl]. simpl in *.
  destruct fl; simpl; split; intros H; try discriminate; try reflexivity.
  injection H as ->. specialize (Hret _ eq_refl). discriminate.
Qed.

Lemma run_unittest_files_zero_iff_witness :
  (run_unittest_files abc_worker ["test_a.py"; "test_c.py"]).2 = Ok (VInt 0).
Proof.
  apply (run_unittest_files_zero_iff abc_worker ["test_a.py"; "test_c.py"]).
  repeat constructor.
Defined.

(** X18. A worker that cannot be started makes [run_with_timeout] raise
    [RuntimeError], which [run_unittest_files] does not catch: the run ends
    by that exception at the file, with no later file started, no
    termination, no sleep and nothing printed. *)
Theorem run_unittest_files_start_failure (worker : string -> behaviour)
        (pre post : list string) (f : string) :
  all_succeed worker pre ->
  worker f = StartFails ->
  run_unittest_files worker (pre ++ f :: post) =
    ((EvStart <$> pre) ++ [EvStart f], Raise (RuntimeError ArgNone)).
Proof.
  intros Hpre Hf. unfold run_unittest_files. rewrite for_files_app by assumption.
  simpl. unfold run_one_file. rewrite Hf. reflexivity.
Qed.

Lemma run_unittest_files_start_failure_witness :
  run_unittest_files broken_worker ["test_a.py"; "test_b.py"; "test_c.py"] =
    ([EvStart "test_a.py"; EvStart "test_b.py"], Raise (RuntimeError ArgNone)).
Proof.
  apply (run_unittest_files_start_failure broken_worker ["test_a.py"] ["test_c.py"]
           "test_b.py"); [repeat constructor | reflexivity].
Defined.

(** X19. The runner terminates a worker only when that worker was still
    running at the timeout, and a run in which a worker was terminated
    returns [False]; a worker that ended by itself is never terminated. *)
Theorem run_unittest_files_terminate_only_hung (worker : string -> behaviour)
        (files : list string) (f : string) :
  EvTerminate f ∈ (run_unittest_files worker files).1 ->
  worker f = Hangs /\ (run_unittest_files worker files).2 = Ok (VBool false).
Proof.
  pose proof (for_files_terminate worker files f) as H.
  unfold run_unittest_files.
  destruct (for_files worker files) as [evs fl]. simpl in H.
  destruct fl; simpl; intros Hin.
  - apply elem_of_app in Hin as [Hin|Hin]; [now destruct (H Hin)|].
    apply list_elem_of_singleton in Hin. discriminate.
  - apply elem_of_app in Hin as [Hin|Hin]; [now destruct (H Hin)|].
    apply list_elem_of_singleton in Hin. discriminate.
  - destruct (H Hin) as [Hw [= ->]]. auto.
  - now destruct (H Hin).
Qed.

Lemma run_unittest_files_terminate_only_hung_witness :
  hang_worker "test_hang.py" = Hangs
  /\ (run_unittest_files hang_worker ["test_a.py"; "test_hang.py"]).2 = Ok (VBool false).
Proof.
  apply (run_unittest_files_terminate_only_hung hang_worker
           ["test_a.py"; "test_hang.py"] "test_hang.py").
  vm_compute. set_solver.
Defined.

(** ** The baseline callers of [test_utils.py] *)

Lemma io_bind_ok {A B} (m : io A) (k : A -> io B) n a n' :
  m n = (Ok a, n') -> io_bind m k n = k a n'.
Proof. intros H. unfold io_bind. now rewrite H. Qed.

Lemma io_bind_raise {A B} (m : io A) (k : A -> io B) n e n' :
  m n = (Raise e, n') -> io_bind m k n = (Raise e, n').
Proof. intros H. unfold io_bind. now rewrite H. Qed.

Lemma requests_post_ok url data n res rest :
  answers n = Some res :: rest ->
  requests_post url data n =
    (Ok res, {| posted := posted n ++ [{| post_url := url; post_json := data |}];
                answers := rest |}).
Proof. intros H. unfold requests_post. now rewrite H. Qed.

Lemma strip_prompt_echo prompt n res completions score net0 :
  post_status res = 200 ->
  post_body res = Some (ReplyTexts ((fun c => prompt +:+ c) <$> completions) score) ->
  strip_prompt prompt n res net0 =
    (if n =? 1
     then match completions with
          | c :: _ => Ok (PredStr c)
          | [] => Raise IndexError
          end
     else Ok (PredList completions), net0).
Proof.
  intros Hst Hb. unfold strip_prompt.
  erewrite io_bind_ok by (unfold io_assert; rewrite Hst; reflexivity). cbv beta.
  destruct (n =? 1).
  - erewrite io_bind_ok by (unfold post_json_body; rewrite Hb; reflexivity).
    erewrite io_bind_ok by reflexivity.
    destruct completions as [|c more]; simpl; [reflexivity|].
    unfold io_bind, io_ret. simpl. now rewrite str_drop_app.
  - erewrite io_bind_ok by (unfold post_json_body; rewrite Hb; reflexivity).
    erewrite io_bind_ok by reflexivity. unfold io_ret. simpl.
    do 3 f_equal. clear Hb. induction completions as [|c more IH]; [reflexivity|].
    rewrite !fmap_cons, str_drop_app. f_equal. exact IH.
Qed.

(** X20. When the server answers with status 200 and texts that begin
    with the prompt, [call_generate_vllm] and [call_generate_outlines]
    return the texts without the prompt: the first one alone when [n] is 1
    (an index error when there is none), the list of all of them
    otherwise. *)
Theorem call_generate_strips_prompt
        (prompt : string) (temperature : spec_float) (max_tokens : Z)
        (stop regex : pyval) (n : Z) (url : string) (net0 : net)
        (res : PostResponse) (rest : list (option PostResponse))
        (completions : list string) (score : option spec_float) :
  answers net0 = Some res :: rest ->
  post_status res = 200 ->
  post_body res = Some (ReplyTexts ((fun c => prompt +:+ c) <$> completions) score) ->
  let expected :=
    if n =? 1
    then match completions with
         | c :: _ => Ok (PredStr c)
         | [] => Raise IndexError
         end
    else Ok (PredList completions) in
  (call_generate_vllm prompt temperature max_tokens stop n (Some url) net0).1 = expected
  /\ (call_generate_outlines prompt temperature max_tokens stop regex n (Some url) net0).1 =
       expected.
Proof.
  intros Hin Hst Hb expected. unfold call_generate_vllm, call_generate_outlines.
  split.
  - erewrite io_bind_ok by reflexivity. cbv beta.
    erewrite io_bind_ok by (apply requests_post_ok; exact Hin).
    now erewrite strip_prompt_echo by eassumption.
  - erewrite io_bind_ok by reflexivity. cbv beta.
    erewrite io_bind_ok by (apply requests_post_ok; exact Hin).
    now erewrite strip_prompt_echo by eassumption.
Qed.

Lemma call_generate_strips_prompt_witness :
  (call_generate_vllm "Q: 2+2? A:" float_zero 8 VNone 1 (Some "http://h:21000/generate")
                      echo_net).1 = Ok (PredStr " 4")
  /\ (call_generate_vllm "Q: 2+2? A:" float_zero 8 VNone 2 (Some "http://h:21000/generate")
                         echo_net).1 = Ok (PredList [" 4"; " four"]).
Proof.
  split.
  - apply (call_generate_strips_prompt "Q: 2+2? A:" float_zero 8 VNone VNone 1
             "http://h:21000/generate" echo_net _ _ [" 4"; " four"] None eq_refl eq_refl
             eq_refl).
  - apply (call_generate_strips_prompt "Q: 2+2? A:" float_zero 8 VNone VNone 2
             "http://h:21000/generate" echo_net _ _ [" 4"; " four"] None eq_refl eq_refl
             eq_refl).
Defined.

(** X21. Without an address the four baseline callers raise the assertion
    error with nothing posted.  With an address and a reply of another
    status than 200 they raise the assertion error after the one post,
    whatever the body holds. *)
Theorem call_generate_assertions
        (prompt : string) (temperature : spec_float) (max_tokens : Z)
        (stop regex : pyval) (n : Z) (net0 : net) :
  (call_generate_lightllm prompt temperature max_tokens stop None net0 =
     (Raise (AssertionError None), net0)
   /\ call_generate_vllm prompt temperature max_tokens stop n None net0 =
        (Raise (AssertionError None), net0)
   /\ call_generate_outlines prompt temperature max_tokens stop regex n None net0 =
        (Raise (AssertionError None), net0)
   /\ call_generate_srt_raw prompt temperature max_tokens stop None net0 =
        (Raise (AssertionError None), net0))
  /\ forall url res rest,
       answers net0 = Some res :: rest ->
       post_status res <> 200 ->
       let failed (A : Type) (run : result A * net) :=
         run.1 = Raise (AssertionError None)
         /\ answers run.2 = rest
         /\ exists data, posted run.2 =
                           posted net0 ++ [{| post_url := url; post_json := data |}] in
       failed _ (call_generate_lightllm prompt temperature max_tokens stop (Some url) net0)
       /\ failed _ (call_generate_vllm prompt temperature max_tokens stop n (Some url) net0)
       /\ failed _ (call_generate_outlines prompt temperature max_tokens stop regex n
                      (Some url) net0)
       /\ failed _ (call_generate_srt_raw prompt temperature max_tokens stop (Some url) net0).
Proof.
  split; [repeat split|].
  intros url res rest Hin Hst failed. apply Z.eqb_neq in Hst.
  unfold call_generate_lightllm, call_generate_vllm, call_generate_outlines,
    call_generate_srt_raw, strip_prompt.
  repeat split;
    (erewrite io_bind_ok by reflexivity; cbv beta;
     erewrite io_bind_ok by (apply requests_post_ok; exact Hin);
     erewrite io_bind_raise by (unfold io_assert; rewrite Hst; reflexivity));
    first [reflexivity | eexists; reflexivity].
Qed.

Lemma call_generate_assertions_witness :
  (call_generate_srt_raw "Hello" float_zero 8 VNone (Some "http://h:30000/generate")
                         failing_net).1 = Raise (AssertionError None).
Proof.
  destruct (call_generate_assertions "Hello" float_zero 8 VNone VNone 1 failing_net)
    as [_ H].
  destruct (H "http://h:30000/generate" _ _ eq_refl ltac:(discriminate))
    as (_ & _ & _ & Hsrt & _).
  exact Hsrt.
Defined.

(** ** The baseline selectors *)

Lemma select_lightllm_scores_ok context url : forall choices ress rest n,
  length ress = length choices ->
  all_ok n ress rest ->
  select_lightllm_scores context choices url n =
    (Ok ((fun _ => 0) <$> choices),
     {| posted := posted n ++ (lightllm_select_request url context <$> choices);
        answers := rest |}).
Proof.
  induction choices as [|c choices IH]; intros ress rest n Hlen [Hin Hok].
  - destruct ress; [|discriminate]. simpl in *. unfold io_ret.
    rewrite app_nil_r. destruct n. simpl in *. now subst.
  - destruct ress as [|res ress]; [discriminate|]. simpl in Hlen, Hin.
    inversion Hok as [|? ? Hst Hok']; subst.
    change (select_lightllm_scores context (c :: choices) url) with
      (io_bind (requests_post url (post_json (lightllm_select_request url context c)))
         (fun res => io_bind (io_assert (post_status res =? 200))
            (fun _ => io_bind (select_lightllm_scores context choices url)
               (fun scores => io_ret (0 :: scores))))).
    erewrite io_bind_ok by (apply requests_post_ok; exact Hin). cbv beta.
    erewrite io_bind_ok by (unfold io_assert; rewrite Hst; reflexivity). cbv beta.
    erewrite io_bind_ok by (apply (IH ress rest); [lia | split; [reflexivity | exact Hok']]).
    unfold io_ret. simpl. now rewrite <- app_assoc.
Qed.

Lemma argmax_scan_int_zeros l : forall max_ind i,
  Forall (fun x => x = 0) l -> argmax_scan_int 0 max_ind i l = max_ind.
Proof.
  induction l as [|x l IH]; intros max_ind i H; [reflexivity|].
  inversion H; subst. simpl. now apply IH.
Qed.

(** X22. [call_select_lightllm] posts one request per choice, in order,
    each for the context followed by the choice and one new token; when all
    are answered with status 200 it returns index 0, whatever the bodies
    hold.  On an empty list of choices it raises the value error of
    [numpy.argmax] with nothing posted. *)
Theorem call_select_lightllm_first
        (context : string) (choices : list string) (url : string) (n : net)
        (ress : list PostResponse) (rest : list (option PostResponse)) :
  (choices <> [] ->
   length ress = length choices ->
   all_ok n ress rest ->
   call_select_lightllm context choices (Some url) n =
     (Ok 0%nat,
      {| posted := posted n ++ (lightllm_select_request url context <$> choices);
         answers := rest |}))
  /\ call_select_lightllm context [] (Some url) n = (Raise ValueError, n).
Proof.
  split; [|reflexivity].
  intros Hne Hlen Hok. unfold call_select_lightllm.
  erewrite io_bind_ok by reflexivity. cbv beta.
  erewrite io_bind_ok by (apply (select_lightllm_scores_ok _ _ _ ress rest); assumption).
  destruct choices as [|c choices]; [congruence|]. simpl.
  rewrite argmax_scan_int_zeros; [reflexivity|].
  clear. induction choices; constructor; auto.
Qed.

Lemma call_select_lightllm_first_witness :
  (call_select_lightllm "2+2=" ["4"; "5"; "6"] (Some "http://h:22000/generate") plain_net).1 =
    Ok 0%nat.
Proof.
  destruct (call_select_lightllm_first "2+2=" ["4"; "5"; "6"] "http://h:22000/generate"
              plain_net
              (replicate 3 {| post_status := 200; post_body := Some ReplyObject |}) [])
    as [H _].
  rewrite H; [reflexivity | discriminate | reflexivity |].
  split; [reflexivity | repeat constructor].
Defined.

Lemma select_vllm_scores_ok context url : forall choices ress rest n,
  length ress = length choices ->
  all_ok n ress rest ->
  Forall (fun res => is_Some (post_body res)) ress ->
  select_vllm_scores context choices url n =
    (Ok (response_score <$> ress),
     {| posted := posted n ++ (vllm_select_request url context <$> choices);
        answers := rest |}).
Proof.
  induction choices as [|c choices IH]; intros ress rest n Hlen [Hin Hok] Hjson.
  - destruct ress; [|discriminate]. simpl in *. unfold io_ret.
    rewrite app_nil_r. destruct n. simpl in *. now subst.
  - destruct ress as [|res ress]; [discriminate|]. simpl in Hlen, Hin.
    inversion Hok as [|? ? Hst Hok']; subst.
    inversion Hjson as [|? ? [d Hd] Hjson']; subst.
    change (select_vllm_scores context (c :: choices) url) with
      (io_bind (requests_post url (post_json (vllm_select_request url context c)))
         (fun res => io_bind (io_assert (post_status res =? 200))
            (fun _ => io_bind (post_json_body res)
               (fun d => io_bind (select_vllm_scores context choices url)
                  (fun scores => io_ret (doc_prompt_score d :: scores)))))).
    erewrite io_bind_ok by (apply requests_post_ok; exact Hin). cbv beta.
    erewrite io_bind_ok by (unfold io_assert; rewrite Hst; reflexivity). cbv beta.
    erewrite io_bind_ok by (unfold post_json_body; rewrite Hd; reflexivity). cbv beta.
    erewrite io_bind_ok
      by (apply (IH ress rest); [lia | split; [reflexivity | exact Hok'] | exact Hjson']).
    unfold io_ret, response_score. simpl. rewrite Hd. now rewrite <- app_assoc.
Qed.

(** X23. When every post of [call_select_vllm] is answered with status
    200 and a JSON object, the index returned is the one [numpy.argmax]
    gives on the scores, a response without ["prompt_score"] counting as
    0: the first index of the maximal score when no score is a NaN, the
    index of the first NaN when some score is one.  When no response
    carries a score, as with a server that was not modified to send one,
    the index is 0. *)
Theorem call_select_vllm_first_max
        (context : string) (choices : list string) (url : string) (n : net)
        (ress : list PostResponse) (rest : list (option PostResponse)) :
  choices <> [] ->
  length ress = length choices ->
  all_ok n ress rest ->
  Forall (fun res => is_Some (post_body res)) ress ->
  exists idx,
    call_select_vllm context choices (Some url) n =
      (Ok idx,
       {| posted := posted n ++ (vllm_select_request url context <$> choices);
          answers := rest |})
    /\ (no_nan (response_score <$> ress) -> is_first_max (response_score <$> ress) idx)
    /\ (forall j, is_first_nan (response_score <$> ress) j -> idx = j)
    /\ (Forall unscored ress -> idx = 0%nat).
Proof.
  intros Hne Hlen Hok Hjson.
  destruct (np_argmax_spec (response_score <$> ress)) as (idx & Hidx & Hmax & Hfirst).
  { destruct ress; [|discriminate]. destruct choices; [congruence | discriminate]. }
  exists idx. split; [|split; [exact Hmax | split; [exact Hfirst|]]].
  - unfold call_select_vllm.
    erewrite io_bind_ok by reflexivity. cbv beta.
    erewrite io_bind_ok by (apply (select_vllm_scores_ok _ _ _ ress rest); assumption).
    now rewrite Hidx.
  - intros Hun.
    assert (Hz : forall j x, (response_score <$> ress) !! j = Some x ->
                   x = S754_zero false).
    { intros j x Hj. rewrite list_lookup_fmap in Hj.
      destruct (ress !! j) as [res|] eqn:Hres; [|discriminate].
      simpl in Hj. injection Hj as <-.
      rewrite Forall_forall in Hun.
      destruct (Hun res) as (d & Hd & Hs); [eapply list_elem_of_lookup_2, Hres|].
      unfold response_score. now rewrite Hd. }
    assert (Hnan : no_nan (response_score <$> ress)).
    { apply Forall_lookup_2. intros j x Hj. rewrite (Hz _ _ Hj). discriminate. }
    destruct idx as [|idx]; [reflexivity|]. exfalso.
    destruct (Hmax Hnan) as (best & Hbest & _ & Hbefore).
    destruct ress as [|res0 ress]; [discriminate|].
    rewrite (Hz _ _ Hbest) in Hbefore.
    specialize (Hbefore 0%nat (response_score res0) ltac:(lia) eq_refl).
    rewrite (Hz 0%nat (response_score res0) eq_refl) in Hbefore. discriminate.
Qed.

Lemma call_select_vllm_first_max_witness :
  (call_select_vllm "2+2=" ["5"; "4"; "four"] (Some "http://h:21000/generate")
                    scoring_net).1 = Ok 1%nat
  /\ (call_select_vllm "2+2=" ["5"; "4"; "four"] (Some "http://h:21000/generate")
                       nan_net).1 = Ok 1%nat.
Proof.
  split.
  - edestruct (call_select_vllm_first_max "2+2=" ["5"; "4"; "four"]
                 "http://h:21000/generate" scoring_net
                 [ {| post_status := 200; post_body := Some (ReplyTexts [] (Some float_minus_1_5)) |};
                   {| post_status := 200; post_body := Some (ReplyTexts [] (Some float_minus_quarter)) |};
                   {| post_status := 200; post_body := Some (ReplyTexts [] (Some float_minus_quarter)) |} ]
                 [])
      as (idx & Hrun & _ & _).
    + discriminate.
    + reflexivity.
    + split; [reflexivity | repeat constructor].
    + repeat constructor; eexists; reflexivity.
    + rewrite Hrun. vm_compute in Hrun. now injection Hrun as <-.
  - edestruct (call_select_vllm_first_max "2+2=" ["5"; "4"; "four"]
                 "http://h:21000/generate" nan_net
                 [ {| post_status := 200; post_body := Some (ReplyTexts [] (Some float_minus_quarter)) |};
                   {| post_status := 200; post_body := Some (ReplyTexts [] (Some S754_nan)) |};
                   {| post_status := 200; post_body := Some (ReplyTexts [] (Some float_one)) |} ]
                 [])
      as (idx & Hrun & _ & Hfirst & _).
    + discriminate.
    + reflexivity.
    + split; [reflexivity | repeat constructor].
    + repeat constructor; eexists; reflexivity.
    + rewrite Hrun. simpl. f_equal. apply Hfirst. split; [reflexivity|].
      intros j x Hj Hx. destruct j as [|j]; [|lia].
      injection Hx as <-. discriminate.
Defined.

(** ** Command-line arguments and the choice of a backend *)

(** X24. [add_common_other_args_and_parse] keeps a port given on the
    command line and touches no other argument.  Without one, among the
    backends the parser accepts, the port stays [None] exactly for
    [guidance] and [llama.cpp]; every other accepted backend gets a
    default. *)
Theorem default_port_rule (args : Namespace) :
  ns_backend (add_common_other_args_and_parse args) = ns_backend args
  /\ ns_host (add_common_other_args_and_parse args) = ns_host args
  /\ (forall port, ns_port args = Some port ->
        add_common_other_args_and_parse args = args)
  /\ (ns_port args = None ->
      ns_backend args ∈ backend_choices ->
      (ns_port (add_common_other_args_and_parse args) = None
       <-> ns_backend args = "guidance" \/ ns_backend args = "llama.cpp")).
Proof.
  unfold add_common_other_args_and_parse.
  destruct args as [b h [port|] m c]; simpl.
  - split; [reflexivity|]. split; [reflexivity|]. split; [reflexivity | discriminate].
  - split; [reflexivity|]. split; [reflexivity|]. split; [discriminate|].
    intros _ Hin. unfold backend_choices in Hin.
    repeat (apply elem_of_cons in Hin as [->|Hin]);
      try (apply elem_of_nil in Hin; contradiction);
      vm_compute; split; intros H; try discriminate; auto;
      destruct H as [H|H]; discriminate.
Qed.

Lemma default_port_rule_witness :
  ns_port (add_common_other_args_and_parse (sample_args "llama.cpp" None)) = None
  /\ add_common_other_args_and_parse (sample_args "vllm" (Some 8000)) =
       sample_args "vllm" (Some 8000).
Proof.
  destruct (default_port_rule (sample_args "llama.cpp" None)) as (_ & _ & _ & H).
  destruct (default_port_rule (sample_args "vllm" (Some 8000))) as (_ & _ & H' & _).
  split.
  - apply H; [reflexivity | unfold backend_choices; set_solver | now right].
  - apply (H' 8000 eq_refl).
Defined.

(** X25. [llama.cpp], which the parser accepts, makes both getters raise
    the value error, and so do [outlines], [ginfer] and [srt-raw] for
    [_get_call_select], although [_get_call_generate] serves them.  For
    [vllm] both getters hand back the caller applied to the host, a colon,
    the port in decimal and [/generate].  None of these cases loads a
    model. *)
Theorem getters_support (Model : Type)
        (guidance_LlamaCpp : string -> Z -> result Model)
        (lmql_model : string -> string -> result Model)
        (warm_up_generate warm_up_select : Model -> result unit)
        (args : Namespace) :
  let get_generate := _get_call_generate Model guidance_LlamaCpp lmql_model
                        warm_up_generate args in
  let get_select := _get_call_select Model guidance_LlamaCpp lmql_model
                      warm_up_select args in
  (ns_backend args = "llama.cpp" ->
     ns_backend args ∈ backend_choices
     /\ get_generate = Raise ValueError /\ get_select = Raise ValueError)
  /\ (ns_backend args ∈ no_select ->
        ns_backend args ∈ backend_choices /\ get_select = Raise ValueError)
  /\ (ns_backend args ∈ ["outlines"; "ginfer"; "srt-raw"] ->
        exists callee, get_generate = Ok callee)
  /\ (forall port, ns_port args = Some port ->
        ns_backend args = "vllm" ->
        get_generate =
          Ok (CallVllm Model (ns_host args +:+ ":" +:+ pretty port +:+ "/generate"))
        /\ get_select =
             Ok (CallVllm Model (ns_host args +:+ ":" +:+ pretty port +:+ "/generate"))).
Proof.
  intros get_generate get_select. subst get_generate get_select.
  unfold _get_call_generate, _get_call_select, no_select, backend_choices.
  split; [|split; [|split]].
  - intros ->. simpl. split; [set_solver | split; reflexivity].
  - intros Hin.
    repeat (apply elem_of_cons in Hin as [->|Hin]);
      try (apply elem_of_nil in Hin; contradiction);
      simpl; (split; [set_solver | reflexivity]).
  - intros Hin.
    repeat (apply elem_of_cons in Hin as [->|Hin]);
      try (apply elem_of_nil in Hin; contradiction);
      simpl; eexists; reflexivity.
  - intros port Hport Hb. unfold host_port.
    rewrite Hb, Hport. simpl. now rewrite !str_app_assoc.
Qed.

Lemma getters_support_witness :
  _get_call_select unit (fun _ _ => Ok tt) (fun _ _ => Ok tt) (fun _ => Ok tt)
                   (sample_args "srt-raw" (Some 30000)) = Raise ValueError
  /\ _get_call_generate unit (fun _ _ => Ok tt) (fun _ _ => Ok tt) (fun _ => Ok tt)
                        (sample_args "vllm" (Some 21000)) =
       Ok (CallVllm unit "http://127.0.0.1:21000/generate").
Proof.
  destruct (getters_support unit (fun _ _ => Ok tt) (fun _ _ => Ok tt) (fun _ => Ok tt)
              (fun _ => Ok tt) (sample_args "srt-raw" (Some 30000))) as (_ & H & _).
  destruct (getters_support unit (fun _ _ => Ok tt) (fun _ _ => Ok tt) (fun _ => Ok tt)
              (fun _ => Ok tt) (sample_args "vllm" (Some 21000))) as (_ & _ & _ & H').
  split.
  - apply H. unfold no_select. set_solver.
  - apply (H' 21000 eq_refl eq_refl).
Defined.

(** X26. For a backend whose name starts with [srt],
    [select_sglang_backend] constructs a [RuntimeEndpoint] at the host and
    port of the arguments, without credential: its one request is the
    metadata fetch there.  The two parallelism flags are switched off
    exactly for [srt-no-parallel], before the constructor runs and whatever
    it answers.  A name that starts with neither [srt] nor [gpt-] raises the
    value error with nothing sent and the flags untouched. *)
Theorem select_sglang_backend_dispatch
        (get_template : string -> ChatTemplate) (super_attrs : gmap string pyval)
        (OpenAIBackend : Type) (OpenAI : string -> exec OpenAIBackend)
        (args : Namespace) (flags : ParallelFlags) (w : world) :
  let run := select_sglang_backend get_template super_attrs OpenAIBackend OpenAI
               args flags w in
  (startswith (ns_backend args) "srt" = true ->
     sent run.1.2 = sent w ++ [model_info_request (host_port args) None None]
     /\ run.2 = (if String.eqb (ns_backend args) "srt-no-parallel"
                 then {| enable_parallel_decoding := false;
                         enable_parallel_encoding := false |}
                 else flags)
     /\ forall p, answers_model_info w p ->
          exists self,
            run.1.1 = Ok (BackendRuntime OpenAIBackend self)
            /\ base_url self = host_port args
            /\ api_key self = None
            /\ get_model_name self run.1.2 = (Ok p, run.1.2))
  /\ (startswith (ns_backend args) "srt" = false ->
      startswith (ns_backend args) "gpt-" = false ->
      run = (Raise ValueError, w, flags)).
Proof.
  intros run. subst run. unfold select_sglang_backend. split.
  - intros ->. simpl.
    pose proof (__init___sent get_template super_attrs (host_port args) None None w)
      as Hsent.
    split; [|split; [reflexivity|]].
    + unfold bind.
      destruct (__init__ get_template super_attrs (host_port args) None None w)
        as [[self|e] w1]; exact Hsent.
    + intros p (res & rest & Hin & Hst & Hbody).
      erewrite bind_ok by (eapply __init___ok; eassumption).
      eexists. repeat split.
  - intros -> ->. reflexivity.
Qed.

Lemma select_sglang_backend_dispatch_witness :
  (select_sglang_backend sample_template base_backend_attrs unit (fun _ => ret tt)
     (sample_args "srt-no-parallel" (Some 30000)) sample_flags model_info_world).2 =
    {| enable_parallel_decoding := false; enable_parallel_encoding := false |}
  /\ select_sglang_backend sample_template base_backend_attrs unit (fun _ => ret tt)
       (sample_args "vllm" (Some 21000)) sample_flags model_info_world =
       (Raise ValueError, model_info_world, sample_flags).
Proof.
  destruct (select_sglang_backend_dispatch sample_template base_backend_attrs unit
              (fun _ => ret tt) (sample_args "srt-no-parallel" (Some 30000)) sample_flags
              model_info_world) as [H _].
  destruct (select_sglang_backend_dispatch sample_template base_backend_attrs unit
              (fun _ => ret tt) (sample_args "vllm" (Some 21000)) sample_flags
              model_info_world) as [_ H'].
  split.
  - destruct (H eq_refl) as (_ & Hflags & _). exact Hflags.
  - apply H'; reflexivity.
Defined.

(** ** Launching a server *)

Lemma str_split_length sep s : length (str_split sep s) = S (count_char sep s).
Proof.
  induction s as [|c s IH]; [reflexivity|]. simpl.
  destruct (Ascii.eqb c sep); simpl; [now rewrite IH|].
  destruct (str_split sep s) as [|p ps]; simpl in *; [discriminate | exact IH].
Qed.

Lemma str_split_none sep s : count_char sep s = 0%nat -> str_split sep s = [s].
Proof.
  induction s as [|c s IH]; [reflexivity|]. simpl.
  destruct (Ascii.eqb c sep); simpl; [discriminate|].
  intros H. now rewrite IH.
Qed.

Lemma str_split_app sep a b :
  count_char sep a = 0%nat ->
  str_split sep (a +:+ String sep b) = a :: str_split sep b.
Proof.
  induction a as [|c a IH].
  - intros _. rewrite str_app_nil. simpl. now rewrite Ascii.eqb_refl.
  - rewrite str_app_cons. simpl. destruct (Ascii.eqb c sep); simpl; [discriminate|].
    intros H. now rewrite IH.
Qed.

(** X27. For an address made of a scheme, [://], a host, a colon and a
    port, none of the three holding a colon, the launcher runs
    [python3 -m sglang.launch_server] with that host and that port, the
    other arguments after them, and the key after them all when it is a
    non-empty string. *)
Theorem launch_command_round_trip
        (model scheme host port : string) (api_key : option string)
        (other_args : list string) :
  count_char ":" scheme = 0%nat ->
  count_char ":" host = 0%nat ->
  count_char ":" port = 0%nat ->
  launch_command model (scheme +:+ "://" +:+ host +:+ ":" +:+ port) api_key other_args =
    Ok (["python3"; "-m"; "sglang.launch_server"; "--model-path"; model;
         "--host"; host; "--port"; port]
          ++ other_args
          ++ match api_key with
             | Some key => if str_truthy key then ["--api-key"; key] else []
             | None => []
             end).
Proof.
  intros Hs Hh Hp. unfold launch_command.
  change ("://" +:+ host +:+ ":" +:+ port)
    with (String ":" (("//" +:+ host) +:+ String ":" port)).
  rewrite (str_split_app ":" scheme) by exact Hs.
  rewrite (str_split_app ":" ("//" +:+ host)) by exact Hh.
  rewrite (str_split_none ":" port) by exact Hp.
  reflexivity.
Qed.

Lemma launch_command_round_trip_witness :
  launch_command "meta-llama/Meta-Llama-3.1-8B-Instruct" "http://localhost:8157"
                 (Some "sk-123456") [] =
    Ok ["python3"; "-m"; "sglang.launch_server";
        "--model-path"; "meta-llama/Meta-Llama-3.1-8B-Instruct";
        "--host"; "localhost"; "--port"; "8157"; "--api-key"; "sk-123456"].
Proof.
  apply (launch_command_round_trip "meta-llama/Meta-Llama-3.1-8B-Instruct" "http"
           "localhost" "8157" (Some "sk-123456") []); reflexivity.
Defined.

(** X28. The launcher builds a command exactly for the addresses that
    hold two colons.  For any other address, one without a scheme or with a
    colon more, it raises the value error before anything is spawned or
    polled. *)
Theorem launch_command_needs_two_colons
        (model base_url : string) (api_key : option string) (other_args : list string) :
  ((exists command, launch_command model base_url api_key other_args = Ok command)
   <-> count_char ":" base_url = 2%nat)
  /\ (count_char ":" base_url <> 2%nat ->
      forall env timeout fuel,
        popen_launch_server env base_url timeout api_key fuel model other_args =
          Some (Raise ValueError, {| spawned := []; polled := []; slept := [] |})).
Proof.
  pose proof (str_split_length ":" base_url) as Hlen.
  assert (Hcases : (exists command,
                      launch_command model base_url api_key other_args = Ok command)
                   /\ count_char ":" base_url = 2%nat
                   \/ launch_command model base_url api_key other_args = Raise ValueError
                      /\ count_char ":" base_url <> 2%nat).
  { unfold launch_command.
    destruct (str_split ":" base_url) as [|a [|b [|c [|d l]]]]; simpl in Hlen;
      try (right; split; [reflexivity | lia]).
    left. split; [eexists; reflexivity | lia]. }
  split.
  - destruct Hcases as [[Hc Hn]|[Hc Hn]]; split; intros H; try assumption; try lia.
    destruct H as [command H]. congruence.
  - intros Hne env timeout fuel. unfold popen_launch_server.
    destruct Hcases as [[_ Hn]|[Hc _]]; [contradiction|]. now rewrite Hc.
Qed.

Lemma launch_command_needs_two_colons_witness :
  popen_launch_server sample_launch_env "localhost:8157" float_300 None 5
                      "meta-llama/Meta-Llama-3.1-8B-Instruct" [] =
    Some (Raise ValueError, {| spawned := []; polled := []; slept := [] |}).
Proof.
  destruct (launch_command_needs_two_colons "meta-llama/Meta-Llama-3.1-8B-Instruct"
              "localhost:8157" None []) as [_ H].
  apply H. simpl. lia.
Defined.

Section PollLoop.
Variable env : launch_env.
Variable base_url : string.
Variable timeout : spec_float.
Variable api_key : option string.

(** [j] rounds in which there is time left and the poll does not answer
    200 are [j] polls and [j] sleeps of ten seconds. *)
Lemma poll_loop_rounds j : forall fuel i tr,
  (forall k, (k < j)%nat ->
     in_time env timeout (i + k) = true /\ is_200 (answer env (i + k - 1)) = false) ->
  poll_loop env base_url timeout api_key (j + fuel) i tr =
    poll_loop env base_url timeout api_key fuel (i + j)
      {| spawned := spawned tr;
         polled := polled tr ++ replicate j (poll_of base_url api_key);
         slept := slept tr ++ replicate j 10 |}.
Proof.
  induction j as [|j IH]; intros fuel i tr H.
  - simpl. rewrite !app_nil_r, Nat.add_0_r. now destruct tr.
  - destruct (H 0%nat ltac:(lia)) as [Ht Ha]. rewrite Nat.add_0_r in Ht, Ha.
    change (S j + fuel)%nat with (S (j + fuel)). simpl poll_loop.
    unfold in_time in Ht. rewrite Ht.
    assert (Hnext : forall k, (k < j)%nat ->
              in_time env timeout (S i + k) = true
              /\ is_200 (answer env (S i + k - 1)) = false).
    { intros k Hk. destruct (H (S k) ltac:(lia)) as [H1 H2].
      replace (S i + k)%nat with (i + S k)%nat by lia. auto. }
    unfold is_200 in Ha.
    destruct (answer env (i - 1)) as [st|]; [rewrite Ha|];
      rewrite (IH _ _ _ Hnext); simpl;
      replace (S (i + j)) with (i + S j)%nat by lia;
      rewrite <- !app_assoc; reflexivity.
Qed.
End PollLoop.

(** X29. With a well-formed address the launcher spawns the command once
    and polls [/v1/models] of the address with the [Authorization] header,
    sleeping ten seconds after every poll that was refused or answered
    another status than 200.  It returns the process at the first poll
    answered 200 while there is time left, and raises the timeout error at
    the first time check that finds no time left, with the process still
    spawned. *)
Theorem popen_launch_server_outcome
        (env : launch_env) (base_url : string) (timeout : spec_float)
        (api_key : option string) (model : string) (other_args command : list string)
        (j fuel : nat) :
  launch_command model base_url api_key other_args = Ok command ->
  (forall k, (k < j)%nat ->
     in_time env timeout (S k) = true /\ is_200 (answer env k) = false) ->
  (in_time env timeout (S j) = true ->
   is_200 (answer env j) = true ->
   popen_launch_server env base_url timeout api_key (S j + fuel) model other_args =
     Some (Ok command,
           {| spawned := [command];
              polled := replicate (S j) (poll_of base_url api_key);
              slept := replicate j 10 |}))
  /\ (in_time env timeout (S j) = false ->
      popen_launch_server env base_url timeout api_key (S j + fuel) model other_args =
        Some (Raise TimeoutError,
              {| spawned := [command];
                 polled := replicate j (poll_of base_url api_key);
                 slept := replicate j 10 |})).
Proof.
  intros Hcmd Hrounds. unfold popen_launch_server. rewrite Hcmd.
  replace (S j + fuel)%nat with (j + S fuel)%nat by lia.
  rewrite poll_loop_rounds.
  2:{ intros k Hk. destruct (Hrounds k Hk) as [H1 H2].
      replace (1 + k - 1)%nat with k by lia. auto. }
  replace (1 + j)%nat with (S j) by lia. simpl poll_loop.
  replace (j - 0)%nat with j by lia.
  split.
  - intros Ht Ha. unfold in_time in Ht. rewrite Ht. unfold is_200 in Ha.
    destruct (answer env j) as [st|]; [|discriminate]. rewrite Ha. simpl.
    do 3 f_equal. change (poll_of base_url api_key :: replicate j (poll_of base_url api_key))
      with (replicate (S j) (poll_of base_url api_key)).
    now rewrite replicate_S_end.
  - intros Ht. unfold in_time in Ht. now rewrite Ht.
Qed.

Lemma popen_launch_server_outcome_witness :
  popen_launch_server sample_launch_env "http://localhost:8157" float_300 None 5
                      "meta-llama/Meta-Llama-3.1-8B-Instruct" [] =
    Some (Ok ["python3"; "-m"; "sglang.launch_server";
              "--model-path"; "meta-llama/Meta-Llama-3.1-8B-Instruct";
              "--host"; "localhost"; "--port"; "8157"],
          {| spawned := [["python3"; "-m"; "sglang.launch_server";
                          "--model-path"; "meta-llama/Meta-Llama-3.1-8B-Instruct";
                          "--host"; "localhost"; "--port"; "8157"]];
             polled := replicate 3 ("http://localhost:8157/v1/models", "Bearer None");
             slept := [10; 10] |})
  /\ popen_launch_server sample_launch_env "http://localhost:8157" float_25 None 5
                         "meta-llama/Meta-Llama-3.1-8B-Instruct" [] =
       Some (Raise TimeoutError,
             {| spawned := [["python3"; "-m"; "sglang.launch_server";
                             "--model-path"; "meta-llama/Meta-Llama-3.1-8B-Instruct";
                             "--host"; "localhost"; "--port"; "8157"]];
                polled := replicate 2 ("http://localhost:8157/v1/models", "Bearer None");
                slept := [10; 10] |}).
Proof.
  split.
  - destruct (popen_launch_server_outcome sample_launch_env "http://localhost:8157"
                float_300 None "meta-llama/Meta-Llama-3.1-8B-Instruct" [] _ 2 2 eq_refl)
      as [H _].
    + intros [|[|k]] Hk; [split; reflexivity | split; reflexivity | lia].
    + apply H; reflexivity.
  - destruct (popen_launch_server_outcome sample_launch_env "http://localhost:8157"
                float_25 None "meta-llama/Meta-Llama-3.1-8B-Instruct" [] _ 2 2 eq_refl)
      as [_ H].
    + intros [|[|k]] Hk; [split; reflexivity | split; reflexivity | lia].
    + apply H; reflexivity.
Defined.
